(** * The API import pipeline of [static/api_import_common.js]

    A shallow embedding of the browser module that previews, remaps and
    commits imported records and manages saved import configurations,
    together with the properties its specification states.

    Conventions of the embedding.
    - A JSON object decoded from a response (a raw record, a mapping) is a
      finite map from its own keys to values ([gmap string _]); reading a
      key, [hasOwnProperty] and assignment are lookup, membership and
      insertion.  Key names that [Object.prototype] gives a meaning of its
      own are not told apart from ordinary ones.
    - JavaScript [null]/[undefined] is [None]; the truthiness test of the
      source ([x && ..], [!x], [x || d]) is [Js.truthy] on strings and the
      [Some]/[None] case on everything else: an array, even an empty one,
      is truthy.
    - The page has the elements the module looks up; of the dialogs, the
      two whose absence the source guards against may be missing.  What is
      drawn is kept as the data handed to the drawing code.
    - An [async] function is cut at its [await]s: the part up to the request
      is a state transformer that registers a continuation ([kont]) under a
      fresh request number, and the part after it runs when the event
      [Deliver] hands the outcome of that request back.  The browser runs
      each part to completion, and parts of different calls interleave in
      any order: this is the event loop, [step]. *)

From Stdlib Require Import ZArith.
From stdpp Require Import base strings list gmap.

Open Scope string_scope.

(** ** JavaScript helpers *)
Module Js.

(** Truthiness of a string: every string but the empty one. *)
Definition truthy (s : string) : bool :=
  match s with
  | EmptyString => false
  | String _ _ => true
  end.

(** Truthiness of a string-or-null value. *)
Definition truthy_opt (o : option string) : bool :=
  match o with
  | Some s => truthy s
  | None => false
  end.

(** [o || d] for a string-or-null [o]. *)
Definition or_default (o : option string) (d : string) : string :=
  match o with
  | Some s => if truthy s then s else d
  | None => d
  end.

(** [value || null]. *)
Definition or_null (value : string) : option string :=
  if truthy value then Some value else None.

(** [s] with the prefix [p] removed, when [s] starts with [p]. *)
Fixpoint strip_prefix (p s : string) : option string :=
  match p, s with
  | EmptyString, _ => Some s
  | String a p', String b s' =>
      if Ascii.eqb a b then strip_prefix p' s' else None
  | String _ _, EmptyString => None
  end.

(** [s.replace(pat, '')] with a string pattern: the first occurrence of
    [pat] is removed, anything else is kept. *)
Fixpoint replace_first (pat s : string) : string :=
  match strip_prefix pat s with
  | Some rest => rest
  | None =>
      match s with
      | EmptyString => EmptyString
      | String c s' => String c (replace_first pat s')
      end
  end.

(** [a.slice(0, n)] on an array. *)
Definition slice0 {A} (n : nat) (a : list A) : list A := take n a.
Global Arguments slice0 : simpl never.

End Js.

(** ** Data *)

(** A JSON value: what a field of a raw record can hold. *)
#[warnings="-register-all"]
Inductive jval :=
| JNull
| JBool (b : bool)
| JNum (z : Z)
| JStr (s : string)
| JArr (items : list jval)
| JObj (fields : list (string * jval)).

(** A raw or mapped record: own keys to values. *)
Abbreviation record := (gmap string jval).

(** A mapping: canonical (WMS) field to the source field name, or [null]. *)
Abbreviation mapping := (gmap string (option string)).

(** ** The mapping engine *)

(** Lines 413-421, the callback of [apiData.map] in
    [reprocessPreviewWithMapping]:
    [for (const [wmsField, apiField] of Object.entries(mappingData))
       if (apiField && row.hasOwnProperty(apiField)) mapped[wmsField] = row[apiField];] *)
Definition remap_row (mappingData : mapping) (row : record) : record :=
  map_fold
    (fun (wmsField : string) (apiField : option string) (mapped : record) =>
       match apiField with
       | Some f =>
           if Js.truthy f then
             match row !! f with
             | Some v => <[wmsField := v]> mapped
             | None => mapped
             end
           else mapped
       | None => mapped
       end)
    (∅ : record) mappingData.

(** Lines 452-460, the callback of [apiData.map] in [handleConfirmImport]
    (a second copy of the same loop). *)
Definition import_row (mappingData : mapping) (row : record) : record :=
  map_fold
    (fun (wmsField : string) (apiField : option string) (mapped : record) =>
       match apiField with
       | Some f =>
           if Js.truthy f then
             match row !! f with
             | Some v => <[wmsField := v]> mapped
             | None => mapped
             end
           else mapped
       | None => mapped
       end)
    (∅ : record) mappingData.

(** [previewData = apiData.map(row => ..)] of [reprocessPreviewWithMapping]. *)
Definition remap_rows (apiData : list record) (mappingData : mapping) : list record :=
  remap_row mappingData <$> apiData.

(** [fullMappedData = apiData.map(row => ..)] of [handleConfirmImport]. *)
Definition fullMappedData (apiData : list record) (mappingData : mapping) : list record :=
  import_row mappingData <$> apiData.

(** Lines 387-391 of [handleSaveMapping]: the mapping read from the entries of
    the mapping form, in order; a later entry of the same field overwrites. *)
Definition newMapping (entries : list (string * string)) : mapping :=
  foldl
    (fun (acc : mapping) (kv : string * string) =>
       let wmsField := Js.replace_first "mapping_" (fst kv) in
       <[wmsField := Js.or_null (snd kv)]> acc)
    (∅ : mapping) entries.

(** ** Configuration of the module *)

(** The options of [init] the embedding uses (labels and display columns
    only shape the rendered cells and are left out). *)
Record settings := {
  moduleType : string;
  apiEndpoint : string;
  wmsFields : list string;
  requirePlatform : bool;
  requireShopName : bool;
  redirectUrl : option string
}.

(** [DEFAULT_CONFIG], lines 21-46. *)
Definition DEFAULT_CONFIG : settings := {|
  moduleType := "orders";
  apiEndpoint := "/import/orders/api";
  wmsFields :=
    ["order_id"; "sku"; "item_name"; "qty"; "order_time"; "shop_name"; "logistic_type"];
  requirePlatform := true;
  requireShopName := false;
  redirectUrl := None
|}.

(** The caller's overrides: [None] is a key the caller left out. *)
Record custom_config := {
  c_moduleType : option string;
  c_apiEndpoint : option string;
  c_wmsFields : option (list string);
  c_requirePlatform : option bool;
  c_requireShopName : option bool;
  c_redirectUrl : option string
}.

(** [{ ...DEFAULT_CONFIG, ...customConfig }], line 78. *)
Definition merge_config (d : settings) (c : custom_config) : settings := {|
  moduleType := default (moduleType d) (c_moduleType c);
  apiEndpoint := default (apiEndpoint d) (c_apiEndpoint c);
  wmsFields := default (wmsFields d) (c_wmsFields c);
  requirePlatform := default (requirePlatform d) (c_requirePlatform c);
  requireShopName := default (requireShopName d) (c_requireShopName c);
  redirectUrl := match c_redirectUrl c with Some u => Some u | None => redirectUrl d end
|}.

(** ** The form, the requests and the responses *)

(** The inputs of [apiImportForm]. *)
Record form := {
  apiUrl : string;
  dataPath : string;
  apiKey : string;
  apiPlatform : string;
  apiShopName : string
}.

(** The body of a preview request, lines 205-212 and 221-228. *)
Record form_data := {
  fd_api_url : string;
  fd_data_path : string;
  fd_api_key : string;
  fd_platform : string;
  fd_shop_name : string;
  fd_use_cache : bool
}.

(** The body of the import request, lines 478-483. *)
Record import_body := {
  ib_platform : string;
  ib_shop_name : string;
  ib_data : list record;
  ib_mapping : mapping
}.

(** A saved configuration as the backend returns it. *)
Record saved_config := {
  sc_id : Z;
  sc_module_type : option string;
  sc_config_name : string;
  sc_platform : option string;
  sc_shop_id : option string;
  sc_api_url : option string;
  sc_data_path : option string;
  sc_api_key : option string
}.

(** The body of the save request, lines 660-668. *)
Record save_body := {
  sb_module_type : string;
  sb_config_name : string;
  sb_shop_name : option string;
  sb_platform : option string;
  sb_api_url : string;
  sb_data_path : string;
  sb_api_key : string
}.

(** What the module sends over the network. *)
Inductive request :=
| ReqPreview (endpoint : string) (body : form_data)  (* POST {endpoint}/preview *)
| ReqImport (endpoint : string) (body : import_body) (* POST {endpoint}/import *)
| ReqConfigs                                         (* GET /api/configs *)
| ReqConfigGet (id : Z)                              (* GET /api/configs/{id} *)
| ReqConfigSave (body : save_body)                   (* POST /api/configs *)
| ReqConfigDelete (id : Z).                          (* DELETE /api/configs/{id} *)

(** The decoded JSON body of a response: the fields the module reads, a
    missing field being [None] (or [false] for the flags). *)
Record result := {
  r_error : option string;
  r_data : option (list record);
  r_mapping : option mapping;
  r_preview : option (list record);
  r_total_rows : option Z;
  r_from_cache : bool;
  r_cache_expires : option string;
  r_imported : option Z;
  r_import_date : option string;
  r_success : bool;
  r_message : option string;
  r_configs : option (list saved_config);
  r_config : option saved_config
}.

(** How [await fetch(..)] followed by [await response.json()] ends. *)
Inductive fetch_outcome :=
| Rejected (message : string)            (* fetch rejects: network failure *)
| Unparsable (message : string)          (* response.json() rejects *)
| Replied (ok : bool) (body : result).   (* response.ok and the body *)

(** What remains to run once [loadSavedConfigs] returns to its caller. *)
Inductive after_saved :=
| SavedDone          (* called from [init] or last in [handleSaveConfig] *)
| SavedThenClear.    (* called from [confirmDeleteConfig], line 920 *)

(** What remains to run once [loadConfigsTable] returns to its caller. *)
Inductive after_table :=
| TableDone          (* called from [openManageConfigsModal] *)
| TableThenDropdown. (* called from [confirmDeleteConfig], line 917 *)

(** The suspended part of an [async] function, waiting for a response. *)
Inductive kont :=
| KPreview                      (* fetchAndPreview, after line 261 *)
| KImport                       (* handleConfirmImport, after line 486 *)
| KLoadSaved (k : after_saved)  (* loadSavedConfigs, after line 553 *)
| KConfigSelect                 (* handleConfigSelect, after line 595 *)
| KSaveConfig                   (* handleSaveConfig, after line 671 *)
| KLoadTable (k : after_table)  (* loadConfigsTable, after line 721 *)
| KViewConfig                   (* handleViewConfig, after line 803 *)
| KDeleteGet                    (* handleDeleteConfig, after line 869 *)
| KDeleteCall.                  (* confirmDeleteConfig, after line 908 *)

(** The dialogs the module opens ([alert], [confirm]). *)
Inductive dialog :=
| AlertPreviewModalMissing                      (* line 243 *)
| AlertNeedApiUrl                               (* line 231 *)
| AlertNoMapping                                (* line 346 *)
| AlertNoData                                   (* line 430 *)
| AlertNeedPlatform                             (* line 442 *)
| AlertNeedShopName                             (* line 447 *)
| AskImport (totalRecords : nat) (answer : bool) (* line 464 *)
| AlertImported (imported : option Z)           (* line 493 *)
| AlertFailure (message : string)               (* lines 508, 684, 929 *)
| AlertConfigLoaded (name : string)             (* line 609 *)
| AlertConfigLoadError                          (* line 613 *)
| AlertSaveNeedShopName                         (* line 635 *)
| AlertSaveNeedPlatform                         (* line 640 *)
| AlertSaveNeedUrl                              (* line 645 *)
| AlertMessage (message : option string)        (* line 675 *)
| AlertManageModalMissing                       (* line 699 *)
| AlertViewError                                (* line 861 *)
| AlertPrepareDeleteError                       (* line 888 *)
| AlertNoConfigToDelete                         (* line 895 *)
| AlertDeleted (name : string).                 (* line 911 *)

(** The default messages of the thrown errors. *)
Definition msg_fetch_failed : string := "เกิดข้อผิดพลาดในการดึงข้อมูล".
Definition msg_import_failed : string := "เกิดข้อผิดพลาดในการนำเข้า".
Definition msg_save_failed : string := "บันทึกไม่สำเร็จ".
Definition msg_delete_failed : string := "ลบไม่สำเร็จ".
Definition msg_load_failed : string := "Failed to load configs".
(** The message of the engine's [TypeError] (its text depends on the
    engine; only that an error is raised matters). *)
Definition msg_type_error : string := "TypeError".

(** ** The state of the page *)

(** The import session: [apiData], [mappingData], [previewData], lines 50-52. *)
Record session := {
  apiData : option (list record);
  mappingData : option mapping;
  previewData : option (list record)
}.

(** The saved-configuration variables: [allConfigs], [configToDelete]. *)
Record store := {
  allConfigs : list saved_config;
  configToDelete : option saved_config
}.

(** The controls the handlers read or disable. *)
Record controls := {
  previewModal : bool;               (* the modal object exists *)
  manageConfigsModal : bool;
  btnConfirmImport_disabled : bool;
  btnConfirmDelete_disabled : bool;
  formv : form
}.

(** The summary line of the preview, lines 333-338. *)
Record summary := {
  sm_total_rows : option Z;
  sm_from_cache : bool;
  sm_cache_expires : option string
}.

(** The configurations panel of the manage dialog, lines 714-796. *)
Inductive panel :=
| PanelIdle
| PanelLoading
| PanelEmpty
| PanelTable (rows : list saved_config)
| PanelError (message : string).

(** What the page shows. *)
Record view := {
  previewLoading : bool;
  previewContent : bool;
  previewError : option string;          (* the error line, when shown *)
  mappingInfo : gmap string string;      (* the badges source -> canonical *)
  previewTableBody : list record;        (* the rows of the preview table *)
  previewSummary : option summary;
  configsPanel : panel;
  deletePrompt : option saved_config;    (* the record the delete dialog names *)
  viewConfigContent : option saved_config
}.

(** The world outside the page's variables. *)
Record world := {
  pending : gmap nat kont;     (* requests in flight and who awaits them *)
  nextId : nat;                (* the number of the next request *)
  net : list request;          (* every request sent, oldest first *)
  dialogs : list dialog;       (* every dialog opened, oldest first *)
  location : option string     (* window.location.href, once assigned *)
}.

Record state := {
  config : settings;
  sess : session;
  stor : store;
  ctl : controls;
  vw : view;
  wld : world
}.

(** *** Field updates *)

Definition upd_sess (f : session -> session) (s : state) : state :=
  {| config := config s; sess := f (sess s); stor := stor s; ctl := ctl s; vw := vw s; wld := wld s |}.
Definition upd_stor (f : store -> store) (s : state) : state :=
  {| config := config s; sess := sess s; stor := f (stor s); ctl := ctl s; vw := vw s; wld := wld s |}.
Definition upd_ctl (f : controls -> controls) (s : state) : state :=
  {| config := config s; sess := sess s; stor := stor s; ctl := f (ctl s); vw := vw s; wld := wld s |}.
Definition upd_vw (f : view -> view) (s : state) : state :=
  {| config := config s; sess := sess s; stor := stor s; ctl := ctl s; vw := f (vw s); wld := wld s |}.
Definition upd_wld (f : world -> world) (s : state) : state :=
  {| config := config s; sess := sess s; stor := stor s; ctl := ctl s; vw := vw s; wld := f (wld s) |}.

Definition set_apiData (v : option (list record)) : state -> state :=
  upd_sess (fun x => {| apiData := v; mappingData := mappingData x; previewData := previewData x |}).
Definition set_mappingData (v : option mapping) : state -> state :=
  upd_sess (fun x => {| apiData := apiData x; mappingData := v; previewData := previewData x |}).
Definition set_previewData (v : option (list record)) : state -> state :=
  upd_sess (fun x => {| apiData := apiData x; mappingData := mappingData x; previewData := v |}).

Definition set_allConfigs (v : list saved_config) : state -> state :=
  upd_stor (fun x => {| allConfigs := v; configToDelete := configToDelete x |}).
Definition set_configToDelete (v : option saved_config) : state -> state :=
  upd_stor (fun x => {| allConfigs := allConfigs x; configToDelete := v |}).

Definition set_btnConfirmImport_disabled (v : bool) : state -> state :=
  upd_ctl (fun x => {| previewModal := previewModal x; manageConfigsModal := manageConfigsModal x;
                       btnConfirmImport_disabled := v;
                       btnConfirmDelete_disabled := btnConfirmDelete_disabled x; formv := formv x |}).
Definition set_btnConfirmDelete_disabled (v : bool) : state -> state :=
  upd_ctl (fun x => {| previewModal := previewModal x; manageConfigsModal := manageConfigsModal x;
                       btnConfirmImport_disabled := btnConfirmImport_disabled x;
                       btnConfirmDelete_disabled := v; formv := formv x |}).
Definition set_formv (v : form) : state -> state :=
  upd_ctl (fun x => {| previewModal := previewModal x; manageConfigsModal := manageConfigsModal x;
                       btnConfirmImport_disabled := btnConfirmImport_disabled x;
                       btnConfirmDelete_disabled := btnConfirmDelete_disabled x; formv := v |}).

Definition set_previewLoading (v : bool) : state -> state :=
  upd_vw (fun x => {| previewLoading := v; previewContent := previewContent x;
                      previewError := previewError x; mappingInfo := mappingInfo x;
                      previewTableBody := previewTableBody x; previewSummary := previewSummary x;
                      configsPanel := configsPanel x; deletePrompt := deletePrompt x;
                      viewConfigContent := viewConfigContent x |}).
Definition set_previewContent (v : bool) : state -> state :=
  upd_vw (fun x => {| previewLoading := previewLoading x; previewContent := v;
                      previewError := previewError x; mappingInfo := mappingInfo x;
                      previewTableBody := previewTableBody x; previewSummary := previewSummary x;
                      configsPanel := configsPanel x; deletePrompt := deletePrompt x;
                      viewConfigContent := viewConfigContent x |}).
Definition set_previewError (v : option string) : state -> state :=
  upd_vw (fun x => {| previewLoading := previewLoading x; previewContent := previewContent x;
                      previewError := v; mappingInfo := mappingInfo x;
                      previewTableBody := previewTableBody x; previewSummary := previewSummary x;
                      configsPanel := configsPanel x; deletePrompt := deletePrompt x;
                      viewConfigContent := viewConfigContent x |}).
Definition set_mappingInfo (v : gmap string string) : state -> state :=
  upd_vw (fun x => {| previewLoading := previewLoading x; previewContent := previewContent x;
                      previewError := previewError x; mappingInfo := v;
                      previewTableBody := previewTableBody x; previewSummary := previewSummary x;
                      configsPanel := configsPanel x; deletePrompt := deletePrompt x;
                      viewConfigContent := viewConfigContent x |}).
Definition set_previewTableBody (v : list record) : state -> state :=
  upd_vw (fun x => {| previewLoading := previewLoading x; previewContent := previewContent x;
                      previewError := previewError x; mappingInfo := mappingInfo x;
                      previewTableBody := v; previewSummary := previewSummary x;
                      configsPanel := configsPanel x; deletePrompt := deletePrompt x;
                      viewConfigContent := viewConfigContent x |}).
Definition set_previewSummary (v : option summary) : state -> state :=
  upd_vw (fun x => {| previewLoading := previewLoading x; previewContent := previewContent x;
                      previewError := previewError x; mappingInfo := mappingInfo x;
                      previewTableBody := previewTableBody x; previewSummary := v;
                      configsPanel := configsPanel x; deletePrompt := deletePrompt x;
                      viewConfigContent := viewConfigContent x |}).
Definition set_configsPanel (v : panel) : state -> state :=
  upd_vw (fun x => {| previewLoading := previewLoading x; previewContent := previewContent x;
                      previewError := previewError x; mappingInfo := mappingInfo x;
                      previewTableBody := previewTableBody x; previewSummary := previewSummary x;
                      configsPanel := v; deletePrompt := deletePrompt x;
                      viewConfigContent := viewConfigContent x |}).
Definition set_deletePrompt (v : option saved_config) : state -> state :=
  upd_vw (fun x => {| previewLoading := previewLoading x; previewContent := previewContent x;
                      previewError := previewError x; mappingInfo := mappingInfo x;
                      previewTableBody := previewTableBody x; previewSummary := previewSummary x;
                      configsPanel := configsPanel x; deletePrompt := v;
                      viewConfigContent := viewConfigContent x |}).
Definition set_viewConfigContent (v : option saved_config) : state -> state :=
  upd_vw (fun x => {| previewLoading := previewLoading x; previewContent := previewContent x;
                      previewError := previewError x; mappingInfo := mappingInfo x;
                      previewTableBody := previewTableBody x; previewSummary := previewSummary x;
                      configsPanel := configsPanel x; deletePrompt := deletePrompt x;
                      viewConfigContent := v |}).

(** [alert(..)] and [confirm(..)]: the dialog is appended to the log. *)
Definition alert (d : dialog) : state -> state :=
  upd_wld (fun w => {| pending := pending w; nextId := nextId w; net := net w;
                       dialogs := dialogs w ++ [d]; location := location w |}).

(** [window.location.href = url]. *)
Definition navigate (url : string) : state -> state :=
  upd_wld (fun w => {| pending := pending w; nextId := nextId w; net := net w;
                       dialogs := dialogs w; location := Some url |}).

(** [await fetch(..)] then [await response.json()]: the request is sent and
    the rest of the caller, [k], waits under a fresh number. *)
Definition fetch (req : request) (k : kont) : state -> state :=
  upd_wld (fun w => {| pending := <[nextId w := k]> (pending w); nextId := S (nextId w);
                       net := net w ++ [req]; dialogs := dialogs w; location := location w |}).

(** The awaiting part is taken off the table when its response arrives. *)
Definition settle (rid : nat) : state -> state :=
  upd_wld (fun w => {| pending := delete rid (pending w); nextId := nextId w;
                       net := net w; dialogs := dialogs w; location := location w |}).

(** ** The preview and cache controller *)

Definition showLoading : state -> state := set_previewLoading true.
Definition hideLoading : state -> state := set_previewLoading false.
Definition showContent : state -> state := set_previewContent true.
Definition hideContent : state -> state := set_previewContent false.
Definition showError (message : string) : state -> state := set_previewError (Some message).
Definition hideError : state -> state := set_previewError None.

(** The badges of [displayPreview], lines 291-303: the entries of the mapping
    whose source field is truthy. *)
Definition badges (m : mapping) : gmap string string :=
  omap (fun apiField : option string =>
          match apiField with
          | Some f => if Js.truthy f then Some f else None
          | None => None
          end) m.

(** [displayPreview(result)], lines 286-339.  The second component is the
    message of the error it throws, if it does: [Object.entries] of a missing
    mapping throws before anything is drawn, [.slice] of a missing preview
    throws after the badges are drawn and the table body is cleared. *)
Definition displayPreview (m : option mapping) (p : option (list record))
    (sm : summary) (s : state) : state * option string :=
  match m with
  | None => (s, Some msg_type_error)
  | Some m =>
      let s := set_mappingInfo (badges m) s in
      match p with
      | None => (set_previewTableBody [] s, Some msg_type_error)
      | Some rows =>
          let s := set_previewTableBody (Js.slice0 10 rows) s in
          (set_previewSummary (Some sm) s, None)
      end
  end.

(** [fetchAndPreview(formData)] up to the request, lines 239-259. *)
Definition fetchAndPreview (formData : form_data) (s : state) : state :=
  if negb (previewModal (ctl s)) then alert AlertPreviewModalMissing s
  else
    let s := showLoading s in
    let s := hideError s in
    let s := hideContent s in
    fetch (ReqPreview (apiEndpoint (config s)) formData) KPreview s.

(** [fetchAndPreview] from the response on, lines 261-282. *)
Definition fetchAndPreview_k (o : fetch_outcome) (s : state) : state :=
  match o with
  | Rejected message | Unparsable message =>
      hideLoading (showError message s)
  | Replied ok res =>
      if negb ok then
        hideLoading (showError (Js.or_default (r_error res) msg_fetch_failed) s)
      else
        let s := set_apiData (r_data res) s in
        let s := set_mappingData (r_mapping res) s in
        let s := set_previewData (r_preview res) s in
        match displayPreview (r_mapping res) (r_preview res)
                {| sm_total_rows := r_total_rows res; sm_from_cache := r_from_cache res;
                   sm_cache_expires := r_cache_expires res |} s with
        | (s, None) => showContent (hideLoading s)
        | (s, Some message) => hideLoading (showError message s)
        end
  end.

Definition read_form (use_cache : bool) (s : state) : form_data :=
  let f := formv (ctl s) in
  {| fd_api_url := apiUrl f; fd_data_path := dataPath f; fd_api_key := apiKey f;
     fd_platform := apiPlatform f; fd_shop_name := apiShopName f; fd_use_cache := use_cache |}.

(** [handleFetchPreview], lines 196-215; [valid] is [form.checkValidity()]. *)
Definition handleFetchPreview (valid : bool) (s : state) : state :=
  if negb valid then s else fetchAndPreview (read_form false s) s.

(** [handlePreviewCache], lines 218-236. *)
Definition handlePreviewCache (s : state) : state :=
  let formData := read_form true s in
  if negb (Js.truthy (fd_api_url formData)) then alert AlertNeedApiUrl s
  else fetchAndPreview formData s.

(** ** The mapping editor *)

(** [handleEditMapping], lines 342-377: the guard; the form it builds is
    read back as the entries of [handleSaveMapping]. *)
Definition handleEditMapping (s : state) : state :=
  match mappingData (sess s) with
  | None => alert AlertNoMapping s
  | Some _ => s
  end.

(** [reprocessPreviewWithMapping], lines 410-422. *)
Definition reprocessPreviewWithMapping (s : state) : state :=
  match apiData (sess s), mappingData (sess s) with
  | Some rows, Some m => set_previewData (Some (remap_rows rows m)) s
  | _, _ => s
  end.

(** [handleSaveMapping], lines 380-407.  With no [previewData] the argument
    [previewData.length] throws and the handler stops there. *)
Definition handleSaveMapping (entries : list (string * string)) (s : state) : state :=
  let s := set_mappingData (Some (newMapping entries)) s in
  let s := reprocessPreviewWithMapping s in
  match previewData (sess s) with
  | None => s
  | Some rows =>
      fst (displayPreview (mappingData (sess s)) (Some rows)
             {| sm_total_rows := Some (Z.of_nat (length rows)); sm_from_cache := true;
                sm_cache_expires := None |} s)
  end.

(** ** The import committer *)

(** [handleConfirmImport] up to the request, lines 425-484; [answer] is what
    the operator answers to [confirm], when asked. *)
Definition handleConfirmImport (answer : bool) (s : state) : state :=
  match apiData (sess s), mappingData (sess s) with
  | Some rows, Some m =>
      let platform := apiPlatform (formv (ctl s)) in
      let shopName := apiShopName (formv (ctl s)) in
      if requirePlatform (config s) && negb (Js.truthy platform) then
        alert AlertNeedPlatform s
      else if requireShopName (config s) && negb (Js.truthy shopName) then
        alert AlertNeedShopName s
      else
        let data := fullMappedData rows m in
        let totalRecords := length data in
        let s := alert (AskImport totalRecords answer) s in
        if negb answer then s
        else
          let s := set_btnConfirmImport_disabled true s in
          fetch (ReqImport (apiEndpoint (config s))
                   {| ib_platform := platform; ib_shop_name := shopName;
                      ib_data := data; ib_mapping := m |}) KImport s
  | _, _ => alert AlertNoData s
  end.

(** The redirect of lines 497-504. *)
Definition redirect_target (cfg : settings) (res : result) : string :=
  match redirectUrl cfg with
  | Some u =>
      if Js.truthy u then u
      else if Js.truthy_opt (r_import_date res)
      then "/?import_from=" ++ default "" (r_import_date res)
             ++ "&import_to=" ++ default "" (r_import_date res)
      else "/"
  | None =>
      if Js.truthy_opt (r_import_date res)
      then "/?import_from=" ++ default "" (r_import_date res)
             ++ "&import_to=" ++ default "" (r_import_date res)
      else "/"
  end.

(** [handleConfirmImport] from the response on, lines 486-513; the last
    update is the [finally] block. *)
Definition handleConfirmImport_k (o : fetch_outcome) (s : state) : state :=
  let s :=
    match o with
    | Rejected message | Unparsable message => alert (AlertFailure message) s
    | Replied ok res =>
        if negb ok then
          alert (AlertFailure (Js.or_default (r_error res) msg_import_failed)) s
        else
          let s := alert (AlertImported (r_imported res)) s in
          if negb (previewModal (ctl s)) then alert (AlertFailure msg_type_error) s
          else navigate (redirect_target (config s) res) s
    end in
  set_btnConfirmImport_disabled false s.

(** ** The saved configuration store *)

(** The filter of lines 557-561 and 725-727:
    [!cfg.module_type || cfg.module_type === config.moduleType]. *)
Definition keep_config (moduleType : string) (cfg : saved_config) : bool :=
  negb (Js.truthy_opt (sc_module_type cfg))
  || match sc_module_type cfg with
     | Some t => String.eqb t moduleType
     | None => false
     end.

(** [loadSavedConfigs] up to the request, lines 550-552. *)
Definition loadSavedConfigs (k : after_saved) (s : state) : state :=
  fetch ReqConfigs (KLoadSaved k) s.

(** [loadSavedConfigs] from the response on, lines 553-567: failures are
    only logged to the console. *)
Definition loadSavedConfigs_k (o : fetch_outcome) (s : state) : state :=
  match o with
  | Rejected _ | Unparsable _ => s
  | Replied _ res =>
      match r_success res, r_configs res with
      | true, Some configs =>
          set_allConfigs (List.filter (keep_config (moduleType (config s))) configs) s
      | _, _ => s
      end
  end.

(** [handleConfigSelect], lines 586-596; [value] is the selected option. *)
Definition handleConfigSelect (value : option Z) (s : state) : state :=
  match value with
  | None => s
  | Some configId => fetch (ReqConfigGet configId) KConfigSelect s
  end.

(** [handleConfigSelect] from the response on, lines 597-614. *)
Definition handleConfigSelect_k (o : fetch_outcome) (s : state) : state :=
  match o with
  | Rejected _ | Unparsable _ => alert AlertConfigLoadError s
  | Replied _ res =>
      match r_success res, r_config res with
      | true, Some cfg =>
          let f := formv (ctl s) in
          let s := set_formv {| apiUrl := Js.or_default (sc_api_url cfg) "";
                                dataPath := Js.or_default (sc_data_path cfg) "";
                                apiKey := Js.or_default (sc_api_key cfg) "";
                                apiPlatform := Js.or_default (sc_platform cfg) "";
                                apiShopName := apiShopName f |} s in
          alert (AlertConfigLoaded (sc_config_name cfg)) s
      | _, _ => s
      end
  end.

(** The name of lines 650-652; [now] is the text of [new Date().getTime()]. *)
Definition configName (cfg : settings) (shopName platform now : string) : string :=
  if Js.truthy shopName && Js.truthy platform
  then shopName ++ "_" ++ platform
  else moduleType cfg ++ "_" ++ now.

(** [handleSaveConfig] up to the request, lines 618-669. *)
Definition handleSaveConfig (now : string) (s : state) : state :=
  let f := formv (ctl s) in
  if requireShopName (config s) && negb (Js.truthy (apiShopName f)) then
    alert AlertSaveNeedShopName s
  else if requirePlatform (config s) && negb (Js.truthy (apiPlatform f)) then
    alert AlertSaveNeedPlatform s
  else if negb (Js.truthy (apiUrl f)) then alert AlertSaveNeedUrl s
  else
    fetch (ReqConfigSave
             {| sb_module_type := moduleType (config s);
                sb_config_name := configName (config s) (apiShopName f) (apiPlatform f) now;
                sb_shop_name := Js.or_null (apiShopName f);
                sb_platform := Js.or_null (apiPlatform f);
                sb_api_url := apiUrl f; sb_data_path := dataPath f;
                sb_api_key := apiKey f |}) KSaveConfig s.

(** [handleSaveConfig] from the response on, lines 671-685. *)
Definition handleSaveConfig_k (o : fetch_outcome) (s : state) : state :=
  match o with
  | Rejected message | Unparsable message => alert (AlertFailure message) s
  | Replied _ res =>
      if r_success res then
        loadSavedConfigs SavedDone (alert (AlertMessage (r_message res)) s)
      else alert (AlertFailure (Js.or_default (r_error res) msg_save_failed)) s
  end.

(** [loadConfigsTable] up to the request, lines 712-720. *)
Definition loadConfigsTable (k : after_table) (s : state) : state :=
  fetch ReqConfigs (KLoadTable k) (set_configsPanel PanelLoading s).

(** [loadConfigsTable] from the response on, lines 721-796. *)
Definition loadConfigsTable_k (o : fetch_outcome) (s : state) : state :=
  match o with
  | Rejected message | Unparsable message => set_configsPanel (PanelError message) s
  | Replied _ res =>
      match r_success res, r_configs res with
      | true, Some all =>
          let configs := List.filter (keep_config (moduleType (config s))) all in
          match configs with
          | [] => set_configsPanel PanelEmpty s
          | _ :: _ => set_configsPanel (PanelTable configs) s
          end
      | _, _ => set_configsPanel (PanelError msg_load_failed) s
      end
  end.

(** [openManageConfigsModal], lines 691-709. *)
Definition openManageConfigsModal (s : state) : state :=
  if negb (manageConfigsModal (ctl s)) then alert AlertManageModalMissing s
  else loadConfigsTable TableDone s.

(** [handleViewConfig], lines 800-803 and 805-862. *)
Definition handleViewConfig (configId : Z) (s : state) : state :=
  fetch (ReqConfigGet configId) KViewConfig s.

Definition handleViewConfig_k (o : fetch_outcome) (s : state) : state :=
  match o with
  | Rejected _ | Unparsable _ => alert AlertViewError s
  | Replied _ res =>
      match r_success res, r_config res with
      | true, Some cfg => set_viewConfigContent (Some cfg) s
      | _, _ => s
      end
  end.

(** [handleDeleteConfig] up to the request, lines 866-868: the first phase
    of a deletion asks for the record. *)
Definition handleDeleteConfig (configId : Z) (s : state) : state :=
  fetch (ReqConfigGet configId) KDeleteGet s.

(** [handleDeleteConfig] from the response on, lines 869-889: the record is
    kept in [configToDelete] and named in the confirmation dialog. *)
Definition handleDeleteConfig_k (o : fetch_outcome) (s : state) : state :=
  match o with
  | Rejected _ | Unparsable _ => alert AlertPrepareDeleteError s
  | Replied _ res =>
      match r_success res, r_config res with
      | true, Some cfg =>
          let s := set_configToDelete (Some cfg) s in
          set_deletePrompt (Some cfg) s
      | _, _ => s
      end
  end.

(** [confirmDeleteConfig] up to the request, lines 893-906: the second
    phase. *)
Definition confirmDeleteConfig (s : state) : state :=
  match configToDelete (stor s) with
  | None => alert AlertNoConfigToDelete s
  | Some cfg =>
      let s := set_btnConfirmDelete_disabled true s in
      fetch (ReqConfigDelete (sc_id cfg)) KDeleteCall s
  end.

(** The [finally] block of [confirmDeleteConfig], lines 930-934. *)
Definition confirmDelete_finally : state -> state :=
  set_btnConfirmDelete_disabled false.

(** [confirmDeleteConfig] from the response of the DELETE up to the next
    [await], lines 908-917 and 924-934. *)
Definition confirmDeleteConfig_k (o : fetch_outcome) (s : state) : state :=
  match o with
  | Rejected message | Unparsable message =>
      confirmDelete_finally (alert (AlertFailure message) s)
  | Replied _ res =>
      if r_success res then
        match configToDelete (stor s) with
        | None => confirmDelete_finally (alert (AlertFailure msg_type_error) s)
        | Some cfg =>
            loadConfigsTable TableThenDropdown (alert (AlertDeleted (sc_config_name cfg)) s)
        end
      else
        confirmDelete_finally
          (alert (AlertFailure (Js.or_default (r_error res) msg_delete_failed)) s)
  end.

(** What the caller of [loadConfigsTable] does when it returns. *)
Definition resume_after_table (k : after_table) (s : state) : state :=
  match k with
  | TableDone => s
  | TableThenDropdown => loadSavedConfigs SavedThenClear s       (* line 920 *)
  end.

(** What the caller of [loadSavedConfigs] does when it returns. *)
Definition resume_after_saved (k : after_saved) (s : state) : state :=
  match k with
  | SavedDone => s
  | SavedThenClear =>
      confirmDelete_finally (set_configToDelete None s)          (* lines 923, 930-934 *)
  end.

(** ** The event loop *)

(** The part of an [async] function that runs when its response is in. *)
Definition resume (k : kont) (o : fetch_outcome) (s : state) : state :=
  match k with
  | KPreview => fetchAndPreview_k o s
  | KImport => handleConfirmImport_k o s
  | KLoadSaved a => resume_after_saved a (loadSavedConfigs_k o s)
  | KConfigSelect => handleConfigSelect_k o s
  | KSaveConfig => handleSaveConfig_k o s
  | KLoadTable a => resume_after_table a (loadConfigsTable_k o s)
  | KViewConfig => handleViewConfig_k o s
  | KDeleteGet => handleDeleteConfig_k o s
  | KDeleteCall => confirmDeleteConfig_k o s
  end.

(** What happens on the page: the operator acts, or a response arrives. *)
Inductive event :=
| Input (f : form)                                      (* the form is edited *)
| ClickFetchPreview (valid : bool)                      (* btnFetchPreview *)
| ClickPreviewCache                                     (* btnPreviewCache *)
| ClickEditMapping                                      (* btnEditMapping *)
| ClickSaveMapping (entries : list (string * string))   (* btnSaveMapping *)
| ClickConfirmImport (answer : bool)                    (* btnConfirmImport *)
| SelectConfig (value : option Z)                       (* savedConfigSelect *)
| ClickSaveConfig (now : string)                        (* btnSaveConfig *)
| ClickManageConfigs                                    (* btnManageConfigs *)
| ClickView (configId : Z)                              (* a View button *)
| ClickDelete (configId : Z)                            (* a Delete button *)
| ClickConfirmDelete                                    (* btnConfirmDelete *)
| Deliver (rid : nat) (o : fetch_outcome).              (* a response arrives *)

(** One turn of the event loop.  A disabled button dispatches no click, so
    its listener does not run; a response wakes the part that awaits it. *)
Definition step (e : event) (s : state) : state :=
  match e with
  | Input f => set_formv f s
  | ClickFetchPreview valid => handleFetchPreview valid s
  | ClickPreviewCache => handlePreviewCache s
  | ClickEditMapping => handleEditMapping s
  | ClickSaveMapping entries => handleSaveMapping entries s
  | ClickConfirmImport answer =>
      if btnConfirmImport_disabled (ctl s) then s else handleConfirmImport answer s
  | SelectConfig value => handleConfigSelect value s
  | ClickSaveConfig now => handleSaveConfig now s
  | ClickManageConfigs => openManageConfigsModal s
  | ClickView configId => handleViewConfig configId s
  | ClickDelete configId => handleDeleteConfig configId s
  | ClickConfirmDelete =>
      if btnConfirmDelete_disabled (ctl s) then s else confirmDeleteConfig s
  | Deliver rid o =>
      match pending (wld s) !! rid with
      | Some k => resume k o (settle rid s)
      | None => s
      end
  end.

(** The events of a list, one after the other. *)
Definition run (es : list event) (s : state) : state :=
  foldl (fun s e => step e s) s es.

(** The page before [init]: nothing fetched, nothing shown. *)
Definition blank (cfg : settings) (previewModalOk manageModalOk : bool) : state := {|
  config := cfg;
  sess := {| apiData := None; mappingData := None; previewData := None |};
  stor := {| allConfigs := []; configToDelete := None |};
  ctl := {| previewModal := previewModalOk; manageConfigsModal := manageModalOk;
            btnConfirmImport_disabled := false; btnConfirmDelete_disabled := false;
            formv := {| apiUrl := ""; dataPath := ""; apiKey := "";
                        apiPlatform := ""; apiShopName := "" |} |};
  vw := {| previewLoading := false; previewContent := false; previewError := None;
           mappingInfo := ∅; previewTableBody := []; previewSummary := None;
           configsPanel := PanelIdle; deletePrompt := None; viewConfigContent := None |};
  wld := {| pending := ∅; nextId := 0; net := []; dialogs := []; location := None |}
|}.

(** [init(customConfig)], lines 76-193: the configuration is merged, the
    listeners are attached and the saved configurations are requested. *)
Definition init (customConfig : custom_config) (previewModalOk manageModalOk : bool) : state :=
  loadSavedConfigs SavedDone
    (blank (merge_config DEFAULT_CONFIG customConfig) previewModalOk manageModalOk).

(** The states the page can be in: [init], then any events. *)
Inductive reachable : state -> Prop :=
| reachable_init customConfig previewModalOk manageModalOk :
    reachable (init customConfig previewModalOk manageModalOk)
| reachable_step e s :
    reachable s -> reachable (step e s).

(** The requests [s'] has sent beyond those of [s]. *)
Definition sent_since (s s' : state) : list request :=
  drop (length (net (wld s))) (net (wld s')).

(** The continuations that belong to a running [confirmDeleteConfig]. *)
Definition in_delete_flow (k : kont) : bool :=
  match k with
  | KDeleteCall | KLoadTable TableThenDropdown | KLoadSaved SavedThenClear => true
  | _ => false
  end.

(** ** Requests in flight *)

(** Some awaiting part satisfies [P]. *)
Definition waiting (P : kont -> bool) (p : gmap nat kont) : Prop :=
  exists r k, p !! r = Some k /\ P k = true.

(** At most one awaiting part satisfies [P]. *)
Definition single (P : kont -> bool) (p : gmap nat kont) : Prop :=
  forall r1 r2 k1 k2,
    p !! r1 = Some k1 -> P k1 = true -> p !! r2 = Some k2 -> P k2 = true -> r1 = r2.

Definition is_import (k : kont) : bool :=
  match k with KImport => true | _ => false end.

(** The table of awaiting parts agrees with the two buttons the module
    disables: a button is disabled exactly while its request (for a
    deletion, the request or the reloads that follow it) is in flight, and
    there is at most one of each. *)
Definition core (p : gmap nat kont) (n : nat) (di dd : bool) : Prop :=
  (forall r k, p !! r = Some k -> r < n)
  /\ (di = true <-> waiting is_import p) /\ single is_import p
  /\ (dd = true <-> waiting in_delete_flow p) /\ single in_delete_flow p.

(** The invariant of the page: the buttons agree with the requests in
    flight, the record the delete dialog names is the record kept for
    deletion, and a record is kept as long as a deletion is running. *)
Definition Inv (s : state) : Prop :=
  core (pending (wld s)) (nextId (wld s))
       (btnConfirmImport_disabled (ctl s)) (btnConfirmDelete_disabled (ctl s))
  /\ (forall X, configToDelete (stor s) = Some X -> deletePrompt (vw s) = Some X)
  /\ (btnConfirmDelete_disabled (ctl s) = true -> is_Some (configToDelete (stor s))).

(** A configuration is shown to a module when it carries the module's tag
    or none ([null], missing or empty). *)
Definition visible (moduleType : string) (cfg : saved_config) : Prop :=
  sc_module_type cfg = Some moduleType
  \/ sc_module_type cfg = None \/ sc_module_type cfg = Some "".

#[global] Instance visible_dec moduleType cfg : Decision (visible moduleType cfg).
Proof. unfold visible. solve_decision. Defined.

(** The configurations [allConfigs] holds once the response [o] to a list
    request is in: those the response lists for the module, or the ones
    held before when the request failed. *)
Definition listed (moduleType : string) (before : list saved_config)
    (o : fetch_outcome) : list saved_config :=
  match o with
  | Replied _ res =>
      match r_success res, r_configs res with
      | true, Some configs => filter (visible moduleType) configs
      | _, _ => before
      end
  | _ => before
  end.

(** ** Sample data *)

(** The raw row and the mapping of the specification's scenario; [sku] is
    left unmapped. *)
Definition ex_row : record :=
  <["Order No" := JStr "1"]> (<["Qty" := JStr "2"]> ∅).
Definition ex_mapping : mapping :=
  <["order_id" := Some "Order No"]> (<["qty" := Some "Qty"]> (<["sku" := None]> ∅)).

(** The entries of a saved mapping form whose [sku] dropdown is left on the
    empty option. *)
Definition ex_entries : list (string * string) :=
  [("mapping_order_id", "Order No"); ("mapping_sku", ""); ("mapping_qty", "Qty")].

(** A response body with no field set. *)
Definition result_empty : result := {|
  r_error := None; r_data := None; r_mapping := None; r_preview := None;
  r_total_rows := None; r_from_cache := false; r_cache_expires := None;
  r_imported := None; r_import_date := None; r_success := false;
  r_message := None; r_configs := None; r_config := None
|}.

(** The body of a successful preview response. *)
Definition preview_reply (rows : list record) (m : mapping) (preview : list record) : result := {|
  r_error := None; r_data := Some rows; r_mapping := Some m; r_preview := Some preview;
  r_total_rows := Some (Z.of_nat (length rows)); r_from_cache := false;
  r_cache_expires := None; r_imported := None; r_import_date := None;
  r_success := false; r_message := None; r_configs := None; r_config := None
|}.

(** The body of an error response. *)
Definition error_reply (message : string) : result := {|
  r_error := Some message; r_data := None; r_mapping := None; r_preview := None;
  r_total_rows := None; r_from_cache := false; r_cache_expires := None;
  r_imported := None; r_import_date := None; r_success := false;
  r_message := None; r_configs := None; r_config := None
|}.

(** A caller of [init] that overrides nothing. *)
Definition no_custom : custom_config := {|
  c_moduleType := None; c_apiEndpoint := None; c_wmsFields := None;
  c_requirePlatform := None; c_requireShopName := None; c_redirectUrl := None
|}.

(** The page of the orders module right after [init]. *)
Definition page0 : state := init no_custom true true.

(** Two sources, A and B, and what each returns. *)
Definition formA : form := {|
  apiUrl := "https://a.example/orders"; dataPath := ""; apiKey := "";
  apiPlatform := "shopee"; apiShopName := "" |}.
Definition formB : form := {|
  apiUrl := "https://b.example/orders"; dataPath := ""; apiKey := "";
  apiPlatform := "lazada"; apiShopName := "" |}.
Definition rowsA : list record := [ <["Order No" := JStr "A-1"]> (<["Qty" := JStr "1"]> ∅) ].
Definition rowsB : list record := [ <["Order No" := JStr "B-7"]> (<["Qty" := JStr "3"]> ∅) ].
Definition replyA : result := preview_reply rowsA ex_mapping (fullMappedData rowsA ex_mapping).
Definition replyB : result := preview_reply rowsB ex_mapping (fullMappedData rowsB ex_mapping).

(** Fetch A is issued (request 1), then fetch B (request 2); B resolves
    first, A resolves last.  Request 0 is the one of [init]. *)
Definition race : list event :=
  [ Input formA; ClickFetchPreview true;
    Input formB; ClickFetchPreview true;
    Deliver 2 (Replied true replyB);
    Deliver 1 (Replied true replyA) ].

(** What a successful preview response leaves in the session. *)
Definition session_of (res : result) : session :=
  {| apiData := r_data res; mappingData := r_mapping res; previewData := r_preview res |}.

(** A request has failed: the network failed, the body could not be read,
    or the backend answered with a non-success status. *)
Definition failed (o : fetch_outcome) : bool :=
  match o with
  | Rejected _ | Unparsable _ => true
  | Replied ok _ => negb ok
  end.

(** The message of the error a failed request raises; [d] is the default
    the handler falls back to when the body carries no [error]. *)
Definition failure_message (d : string) (o : fetch_outcome) : string :=
  match o with
  | Rejected message | Unparsable message => message
  | Replied _ res => Js.or_default (r_error res) d
  end.

(** Saved configurations of several modules, as a backend lists them. *)
Definition cfg_orders : saved_config := {|
  sc_id := 1; sc_module_type := Some "orders"; sc_config_name := "shopA_shopee";
  sc_platform := Some "shopee"; sc_shop_id := None;
  sc_api_url := Some "https://a.example/orders"; sc_data_path := None; sc_api_key := None |}.
Definition cfg_stock : saved_config := {|
  sc_id := 2; sc_module_type := Some "stock"; sc_config_name := "stock_1700000000000";
  sc_platform := None; sc_shop_id := None;
  sc_api_url := Some "https://a.example/stock"; sc_data_path := None; sc_api_key := None |}.
Definition cfg_legacy : saved_config := {|
  sc_id := 3; sc_module_type := None; sc_config_name := "legacy";
  sc_platform := Some "lazada"; sc_shop_id := None;
  sc_api_url := Some "https://b.example/all"; sc_data_path := None; sc_api_key := None |}.

(** The body of a successful list response. *)
Definition configs_reply (configs : list saved_config) : result := {|
  r_error := None; r_data := None; r_mapping := None; r_preview := None;
  r_total_rows := None; r_from_cache := false; r_cache_expires := None;
  r_imported := None; r_import_date := None; r_success := true;
  r_message := None; r_configs := Some configs; r_config := None
|}.

(** The body of a successful single-record response. *)
Definition config_reply (cfg : saved_config) : result := {|
  r_error := None; r_data := None; r_mapping := None; r_preview := None;
  r_total_rows := None; r_from_cache := false; r_cache_expires := None;
  r_imported := None; r_import_date := None; r_success := true;
  r_message := None; r_configs := None; r_config := Some cfg
|}.

(** The body of a bare [{success: true}]. *)
Definition success_reply : result := {|
  r_error := None; r_data := None; r_mapping := None; r_preview := None;
  r_total_rows := None; r_from_cache := false; r_cache_expires := None;
  r_imported := None; r_import_date := None; r_success := true;
  r_message := None; r_configs := None; r_config := None
|}.

(** A preview whose source returned no rows, then a confirmed commit. *)
Definition empty_commit : list event :=
  [ Input formA; ClickFetchPreview true;
    Deliver 1 (Replied true (preview_reply [] ex_mapping []));
    ClickConfirmImport true ].

(** A preview of source A, then a confirmed commit still in flight. *)
Definition commit_in_flight : list event :=
  [ Input formA; ClickFetchPreview true;
    Deliver 1 (Replied true replyA);
    ClickConfirmImport true ].

(** The operator asks to delete configuration 1, the record arrives and is
    shown, and the operator confirms: the DELETE is in flight. *)
Definition delete_in_flight : list event :=
  [ ClickDelete 1; Deliver 1 (Replied true (config_reply cfg_orders)); ClickConfirmDelete ].


(** ** The requests an event can send *)

(** A request to the configuration endpoints is refused: the network
    failed, the body could not be read, or the body has no truthy [success]
    (these handlers do not look at the status). *)
Definition refused (o : fetch_outcome) : bool :=
  match o with
  | Rejected _ | Unparsable _ => true
  | Replied _ res => negb (r_success res)
  end.

(** The body of the import request a commit builds in [s]. *)
Definition import_body_of (s : state) (rows : list record) (m : mapping) : import_body :=
  {| ib_platform := apiPlatform (formv (ctl s)); ib_shop_name := apiShopName (formv (ctl s));
     ib_data := fullMappedData rows m; ib_mapping := m |}.

(** The body of the save request [handleSaveConfig] builds in [s]. *)
Definition save_body_of (s : state) (now : string) : save_body :=
  let f := formv (ctl s) in
  {| sb_module_type := moduleType (config s);
     sb_config_name := configName (config s) (apiShopName f) (apiPlatform f) now;
     sb_shop_name := Js.or_null (apiShopName f);
     sb_platform := Js.or_null (apiPlatform f);
     sb_api_url := apiUrl f; sb_data_path := dataPath f; sb_api_key := apiKey f |}.

(** [sends s e reqs]: the event [e], in the state [s], may send the requests
    [reqs].  Each way of sending something names the event and what the
    state must be like. *)
Inductive sends (s : state) : event -> list request -> Prop :=
| sends_nothing e :
    sends s e []
| sends_fetch_preview :
    previewModal (ctl s) = true ->
    sends s (ClickFetchPreview true)
      [ReqPreview (apiEndpoint (config s)) (read_form false s)]
| sends_preview_cache :
    previewModal (ctl s) = true ->
    Js.truthy (apiUrl (formv (ctl s))) = true ->
    sends s ClickPreviewCache
      [ReqPreview (apiEndpoint (config s)) (read_form true s)]
| sends_import rows m :
    btnConfirmImport_disabled (ctl s) = false ->
    apiData (sess s) = Some rows ->
    mappingData (sess s) = Some m ->
    requirePlatform (config s) && negb (Js.truthy (apiPlatform (formv (ctl s)))) = false ->
    requireShopName (config s) && negb (Js.truthy (apiShopName (formv (ctl s)))) = false ->
    sends s (ClickConfirmImport true)
      [ReqImport (apiEndpoint (config s)) (import_body_of s rows m)]
| sends_select configId :
    sends s (SelectConfig (Some configId)) [ReqConfigGet configId]
| sends_view configId :
    sends s (ClickView configId) [ReqConfigGet configId]
| sends_delete_get configId :
    sends s (ClickDelete configId) [ReqConfigGet configId]
| sends_save now :
    requireShopName (config s) && negb (Js.truthy (apiShopName (formv (ctl s)))) = false ->
    requirePlatform (config s) && negb (Js.truthy (apiPlatform (formv (ctl s)))) = false ->
    Js.truthy (apiUrl (formv (ctl s))) = true ->
    sends s (ClickSaveConfig now) [ReqConfigSave (save_body_of s now)]
| sends_manage :
    manageConfigsModal (ctl s) = true ->
    sends s ClickManageConfigs [ReqConfigs]
| sends_confirm_delete X :
    btnConfirmDelete_disabled (ctl s) = false ->
    configToDelete (stor s) = Some X ->
    sends s ClickConfirmDelete [ReqConfigDelete (sc_id X)]
| sends_reload_saved rid ok res :
    pending (wld s) !! rid = Some KSaveConfig ->
    r_success res = true ->
    sends s (Deliver rid (Replied ok res)) [ReqConfigs]
| sends_reload_table rid ok res X :
    pending (wld s) !! rid = Some KDeleteCall ->
    r_success res = true ->
    configToDelete (stor s) = Some X ->
    sends s (Deliver rid (Replied ok res)) [ReqConfigs]
| sends_reload_dropdown rid o :
    pending (wld s) !! rid = Some (KLoadTable TableThenDropdown) ->
    sends s (Deliver rid o) [ReqConfigs].

(** The page once the operator has filled the form for source A. *)
Definition page_A : state := step (Input formA) page0.

(** The page with the preview of source A shown. *)
Definition page_previewed : state :=
  run [Input formA; ClickFetchPreview true; Deliver 1 (Replied true replyA)] page0.

(** A successful preview response that lacks its mapping. *)
Definition reply_no_mapping : result := {|
  r_error := None; r_data := Some rowsB; r_mapping := None; r_preview := Some rowsB;
  r_total_rows := Some 1%Z; r_from_cache := false; r_cache_expires := None;
  r_imported := None; r_import_date := None; r_success := false;
  r_message := None; r_configs := None; r_config := None
|}.

(** The body of a successful import response. *)
Definition import_reply (imported : Z) (date : option string) : result := {|
  r_error := None; r_data := None; r_mapping := None; r_preview := None;
  r_total_rows := None; r_from_cache := false; r_cache_expires := None;
  r_imported := Some imported; r_import_date := date; r_success := false;
  r_message := None; r_configs := None; r_config := None
|}.

(** A list request yields no list: it was refused, or its body has no
    [configs]. *)
Definition unlisted (o : fetch_outcome) : bool :=
  match o with
  | Rejected _ | Unparsable _ => true
  | Replied _ res => negb (r_success res) || negb (bool_decide (is_Some (r_configs res)))
  end.

(** The form after a saved configuration was loaded into it, lines 601-604:
    the shop name is not part of what is loaded. *)
Definition form_of_config (cfg : saved_config) (before : form) : form :=
  {| apiUrl := Js.or_default (sc_api_url cfg) "";
     dataPath := Js.or_default (sc_data_path cfg) "";
     apiKey := Js.or_default (sc_api_key cfg) "";
     apiPlatform := Js.or_default (sc_platform cfg) "";
     apiShopName := apiShopName before |}.

(** A saved configuration with a credential. *)
Definition cfg_keyed : saved_config := {|
  sc_id := 7; sc_module_type := Some "orders"; sc_config_name := "shopB_lazada";
  sc_platform := Some "lazada"; sc_shop_id := None;
  sc_api_url := Some "https://b.example/orders"; sc_data_path := Some "data.items";
  sc_api_key := Some "s3cr3t" |}.

(** The body of a [{success: false, error}]. *)
Definition refusal_reply (message : string) : result := {|
  r_error := Some message; r_data := None; r_mapping := None; r_preview := None;
  r_total_rows := None; r_from_cache := false; r_cache_expires := None;
  r_imported := None; r_import_date := None; r_success := false;
  r_message := None; r_configs := None; r_config := None
|}.

(** The body of a successful save response. *)
Definition saved_reply (message : string) : result := {|
  r_error := None; r_data := None; r_mapping := None; r_preview := None;
  r_total_rows := None; r_from_cache := false; r_cache_expires := None;
  r_imported := None; r_import_date := None; r_success := true;
  r_message := Some message; r_configs := None; r_config := None
|}.
(** * Properties *)

(** ** The mapping engine *)

Section engine.
Implicit Types (m : mapping) (row out : record) (rows : list record).



Lemma fullMappedData_remap_rows rows m : fullMappedData rows m = remap_rows rows m.
Proof. reflexivity. Qed.

Lemma fullMappedData_length rows m : length (fullMappedData rows m) = length rows.
Proof. unfold fullMappedData. apply length_fmap. Qed.






End engine.

Section in_flight.
Implicit Types (p : gmap nat kont) (P : kont -> bool) (k : kont) (n r : nat).

Lemma fresh_None p n : (forall r k, p !! r = Some k -> r < n) -> p !! n = None.
Proof.
  intros H. destruct (p !! n) as [k|] eqn:E; [|done].
  apply H in E. lia.
Qed.

Lemma waiting_insert P p n k :
  p !! n = None -> waiting P (<[n:=k]> p) <-> P k = true \/ waiting P p.
Proof.
  intros Hn. unfold waiting. split.
  - intros (r & k' & Hr & HP). apply lookup_insert_Some in Hr as [[-> ->]|[? Hr]]; eauto.
  - intros [HP|(r & k' & Hr & HP)].
    + exists n, k. by rewrite lookup_insert_eq.
    + exists r, k'. split; [|done]. rewrite lookup_insert_ne; [done|congruence].
Qed.

Lemma single_insert P p n k :
  p !! n = None -> single P p -> (P k = true -> ~ waiting P p) -> single P (<[n:=k]> p).
Proof.
  intros Hn Hs Hk r1 r2 k1 k2 H1 P1 H2 P2.
  apply lookup_insert_Some in H1 as [[<- <-]|[? H1]];
    apply lookup_insert_Some in H2 as [[<- <-]|[? H2]]; try done.
  - exfalso. apply Hk; [done|]. by exists r2, k2.
  - exfalso. apply Hk; [done|]. by exists r1, k1.
  - by apply (Hs r1 r2 k1 k2).
Qed.

Lemma waiting_delete_other P p r k :
  p !! r = Some k -> P k = false -> waiting P (delete r p) <-> waiting P p.
Proof.
  intros Hr HP. unfold waiting. split.
  - intros (r' & k' & H & HP'). apply lookup_delete_Some in H as [_ H]. eauto.
  - intros (r' & k' & H & HP'). exists r', k'. split; [|done].
    apply lookup_delete_Some. split; [|done]. intros ->. congruence.
Qed.

Lemma waiting_delete_this P p r k :
  p !! r = Some k -> P k = true -> single P p -> ~ waiting P (delete r p).
Proof.
  intros Hr HP Hs (r' & k' & H & HP'). apply lookup_delete_Some in H as [Hne H].
  apply Hne. by apply (Hs r r' k k').
Qed.

Lemma single_delete P p r : single P p -> single P (delete r p).
Proof.
  intros Hs r1 r2 k1 k2 H1 P1 H2 P2.
  apply lookup_delete_Some in H1 as [_ H1]. apply lookup_delete_Some in H2 as [_ H2].
  by apply (Hs r1 r2 k1 k2).
Qed.

Lemma core_import_true p n di dd r :
  core p n di dd -> p !! r = Some KImport -> di = true.
Proof. intros (_ & Hi & _) Hr. apply Hi. by exists r, KImport. Qed.

Lemma core_delete_true p n di dd r k :
  core p n di dd -> p !! r = Some k -> in_delete_flow k = true -> dd = true.
Proof. intros (_ & _ & _ & Hd & _) Hr Hk. apply Hd. by exists r, k. Qed.

(** A request outside the two flows is sent. *)
Lemma core_fetch p n di dd k :
  core p n di dd -> is_import k = false -> in_delete_flow k = false ->
  core (<[n:=k]> p) (S n) di dd.
Proof.
  intros (Hf & Hi & Hi1 & Hd & Hd1) Ki Kd. pose proof (fresh_None _ _ Hf) as Hn.
  repeat split.
  - intros r k' H. apply lookup_insert_Some in H as [[<- _]|[_ H]]; [lia|].
    apply Hf in H. lia.
  - rewrite waiting_insert by done. tauto.
  - rewrite waiting_insert by done. intros [?|?]; [congruence|tauto].
  - apply single_insert; [done..|congruence].
  - rewrite waiting_insert by done. tauto.
  - rewrite waiting_insert by done. intros [?|?]; [congruence|tauto].
  - apply single_insert; [done..|congruence].
Qed.

(** The import request is sent by the enabled button. *)
Lemma core_fetch_import p n dd :
  core p n false dd -> core (<[n:=KImport]> p) (S n) true dd.
Proof.
  intros (Hf & Hi & Hi1 & Hd & Hd1). pose proof (fresh_None _ _ Hf) as Hn.
  repeat split.
  - intros r k' H. apply lookup_insert_Some in H as [[<- _]|[_ H]]; [lia|].
    apply Hf in H. lia.
  - intros _. rewrite waiting_insert by done. by left.
  - apply single_insert; [done..|]. intros _ Hw. apply Hi in Hw. done.
  - rewrite waiting_insert by done. tauto.
  - rewrite waiting_insert by done. simpl. intros [?|?]; [congruence|tauto].
  - apply single_insert; [done..|]. simpl. congruence.
Qed.

(** A request of the deletion flow is sent while no other one is in flight. *)
Lemma core_fetch_delete p n di k :
  core p n di false -> in_delete_flow k = true ->
  core (<[n:=k]> p) (S n) di true.
Proof.
  intros (Hf & Hi & Hi1 & Hd & Hd1) Kd. pose proof (fresh_None _ _ Hf) as Hn.
  assert (is_import k = false) as Ki by (by destruct k).
  repeat split.
  - intros r k' H. apply lookup_insert_Some in H as [[<- _]|[_ H]]; [lia|].
    apply Hf in H. lia.
  - rewrite waiting_insert by done. tauto.
  - rewrite waiting_insert by done. intros [?|?]; [congruence|tauto].
  - apply single_insert; [done..|congruence].
  - intros _. rewrite waiting_insert by done. by left.
  - apply single_insert; [done..|]. intros _ Hw. apply Hd in Hw. done.
Qed.

(** A response outside the two flows arrives. *)
Lemma core_settle p n di dd r k :
  core p n di dd -> p !! r = Some k ->
  is_import k = false -> in_delete_flow k = false ->
  core (delete r p) n di dd.
Proof.
  intros (Hf & Hi & Hi1 & Hd & Hd1) Hr Ki Kd. repeat split.
  - intros r' k' H. apply lookup_delete_Some in H as [_ H]. eauto.
  - rewrite (waiting_delete_other _ _ _ _ Hr Ki). tauto.
  - rewrite (waiting_delete_other _ _ _ _ Hr Ki). tauto.
  - by apply single_delete.
  - rewrite (waiting_delete_other _ _ _ _ Hr Kd). tauto.
  - rewrite (waiting_delete_other _ _ _ _ Hr Kd). tauto.
  - by apply single_delete.
Qed.

(** The response of the import arrives. *)
Lemma core_settle_import p n di dd r :
  core p n di dd -> p !! r = Some KImport -> core (delete r p) n false dd.
Proof.
  intros (Hf & Hi & Hi1 & Hd & Hd1) Hr. repeat split.
  - intros r' k' H. apply lookup_delete_Some in H as [_ H]. eauto.
  - done.
  - intros Hw. by apply (waiting_delete_this _ _ _ _ Hr) in Hw.
  - by apply single_delete.
  - rewrite (waiting_delete_other _ _ _ _ Hr); [tauto|done].
  - rewrite (waiting_delete_other _ _ _ _ Hr); [tauto|done].
  - by apply single_delete.
Qed.

(** A response of the deletion flow arrives. *)
Lemma core_settle_delete p n di dd r k :
  core p n di dd -> p !! r = Some k -> in_delete_flow k = true ->
  core (delete r p) n di false.
Proof.
  intros (Hf & Hi & Hi1 & Hd & Hd1) Hr Kd.
  assert (is_import k = false) as Ki by (by destruct k).
  repeat split.
  - intros r' k' H. apply lookup_delete_Some in H as [_ H]. eauto.
  - rewrite (waiting_delete_other _ _ _ _ Hr Ki). tauto.
  - rewrite (waiting_delete_other _ _ _ _ Hr Ki). tauto.
  - by apply single_delete.
  - done.
  - intros Hw. by apply (waiting_delete_this _ _ _ _ Hr) in Hw.
  - by apply single_delete.
Qed.
End in_flight.

Section invariant.

Lemma core_empty : core ∅ 0 false false.
Proof.
  assert (forall P, ~ waiting P ∅) as Hw.
  { intros P (r & k & H & _). by rewrite lookup_empty in H. }
  assert (forall P, single P ∅) as Hs.
  { intros P r1 r2 k1 k2 H. by rewrite lookup_empty in H. }
  refine (conj _ (conj _ (conj _ (conj _ _)))).
  - intros r k H. by rewrite lookup_empty in H.
  - split; [done|]. intros H. by apply Hw in H.
  - apply Hs.
  - split; [done|]. intros H. by apply Hw in H.
  - apply Hs.
Qed.

Lemma Inv_init c a b : Inv (init c a b).
Proof. split; [|done]. simpl. by apply core_fetch; [apply core_empty|..]. Qed.

Lemma Inv_step e s : Inv s -> Inv (step e s).
Proof.
  destruct s as [cfg [a m p] [ac cd] [pm mm di dd f] v [pend n nt dl loc]].
  intros (C & P & A). simpl in C, P, A.
  destruct e; simpl.
  - by split.
  - unfold handleFetchPreview, fetchAndPreview. destruct valid, pm; simpl; (split; [|done]); simpl; try done.
    by apply core_fetch.
  - unfold handlePreviewCache, fetchAndPreview; simpl.
    destruct (Js.truthy (apiUrl f)), pm; simpl; (split; [|done]); simpl; try done.
    by apply core_fetch.
  - unfold handleEditMapping; simpl. destruct m; by split.
  - unfold handleSaveMapping, reprocessPreviewWithMapping; simpl.
    destruct a; simpl; [by split|]. destruct p; simpl; by split.
  - destruct di; [by split|].
    unfold handleConfirmImport; simpl.
    destruct a; [|by split]. destruct m; [|by split].
    destruct (requirePlatform cfg && negb (Js.truthy (apiPlatform f))); [by split|].
    destruct (requireShopName cfg && negb (Js.truthy (apiShopName f))); [by split|].
    destruct answer; simpl; [|by split].
    split; [|done]. simpl. by apply core_fetch_import.
  - destruct value; simpl; [|by split]. split; [|done]. by apply core_fetch.
  - unfold handleSaveConfig; simpl.
    destruct (requireShopName cfg && negb (Js.truthy (apiShopName f))); [by split|].
    destruct (requirePlatform cfg && negb (Js.truthy (apiPlatform f))); [by split|].
    destruct (negb (Js.truthy (apiUrl f))); [by split|].
    split; [|done]. by apply core_fetch.
  - unfold openManageConfigsModal; simpl. destruct mm; simpl; [|by split].
    split; [|done]. by apply core_fetch.
  - split; [|done]. by apply core_fetch.
  - split; [|done]. by apply core_fetch.
  - destruct dd; [by split|].
    unfold confirmDeleteConfig; simpl. destruct cd as [X|]; [|by split].
    split; [|done]. simpl. by apply core_fetch_delete.
  - destruct (pend !! rid) as [k|] eqn:Hr; [|by split].
    destruct k as [| |k| | |k| | |]; simpl.
    + pose proof (core_settle _ _ _ _ _ _ C Hr eq_refl eq_refl) as C'.
      unfold fetchAndPreview_k.
      destruct o as [msg|msg|[] res]; simpl; try by split.
      unfold displayPreview.
      destruct (r_mapping res); simpl; [destruct (r_preview res)|]; by split.
    + pose proof (core_settle_import _ _ _ _ _ C Hr) as C'.
      unfold handleConfirmImport_k.
      destruct o as [msg|msg|[] res]; simpl; try by split.
      destruct pm; by split.
    + unfold loadSavedConfigs_k. destruct k; simpl.
      * pose proof (core_settle _ _ _ _ _ _ C Hr eq_refl eq_refl) as C'.
        destruct o as [msg|msg|ok res]; simpl; try by split.
        destruct (r_success res), (r_configs res); by split.
      * pose proof (core_settle_delete _ _ _ _ _ _ C Hr eq_refl) as C'.
        destruct o as [msg|msg|ok res]; simpl; try by split.
        destruct (r_success res), (r_configs res); by split.
    + pose proof (core_settle _ _ _ _ _ _ C Hr eq_refl eq_refl) as C'.
      unfold handleConfigSelect_k.
      destruct o as [msg|msg|ok res]; simpl; try by split.
      destruct (r_success res), (r_config res); by split.
    + pose proof (core_settle _ _ _ _ _ _ C Hr eq_refl eq_refl) as C'.
      unfold handleSaveConfig_k.
      destruct o as [msg|msg|ok res]; simpl; try by split.
      destruct (r_success res); simpl; [|by split].
      split; [|done]. by apply core_fetch.
    + unfold loadConfigsTable_k. destruct k; simpl.
      * pose proof (core_settle _ _ _ _ _ _ C Hr eq_refl eq_refl) as C'.
        destruct o as [msg|msg|ok res]; simpl; try by split.
        destruct (r_success res), (r_configs res) as [all|]; simpl; try by split.
        destruct (List.filter _ all); by split.
      * pose proof (core_delete_true _ _ _ _ _ _ C Hr eq_refl) as ->.
        pose proof (core_settle_delete _ _ _ _ _ _ C Hr eq_refl) as C'.
        assert (core (<[n:=KLoadSaved SavedThenClear]> (delete rid pend)) (S n) di true)
          as C'' by (by apply core_fetch_delete).
        destruct o as [msg|msg|ok res]; simpl; try by split.
        destruct (r_success res), (r_configs res) as [all|]; simpl; try by split.
        destruct (List.filter _ all); by split.
    + pose proof (core_settle _ _ _ _ _ _ C Hr eq_refl eq_refl) as C'.
      unfold handleViewConfig_k.
      destruct o as [msg|msg|ok res]; simpl; try by split.
      destruct (r_success res), (r_config res); by split.
    + pose proof (core_settle _ _ _ _ _ _ C Hr eq_refl eq_refl) as C'.
      unfold handleDeleteConfig_k.
      destruct o as [msg|msg|ok res]; simpl; try by split.
      destruct (r_success res), (r_config res) as [X|]; simpl; by split.
    + pose proof (core_delete_true _ _ _ _ _ _ C Hr eq_refl) as ->.
      pose proof (core_settle_delete _ _ _ _ _ _ C Hr eq_refl) as C'.
      assert (core (<[n:=KLoadTable TableThenDropdown]> (delete rid pend)) (S n) di true)
        as C'' by (by apply core_fetch_delete).
      unfold confirmDeleteConfig_k.
      destruct o as [msg|msg|ok res]; simpl; try by split.
      destruct (r_success res); simpl; [|by split].
      destruct cd; by split.
Qed.

(** Every state of the page satisfies the invariant. *)
Lemma reachable_Inv s : reachable s -> Inv s.
Proof. induction 1; [apply Inv_init|by apply Inv_step]. Qed.
End invariant.

Section sent.

Lemma drop_length_app {A} (l x : list A) : drop (length l) (l ++ x) = x.
Proof. by rewrite drop_app_length. Qed.

Lemma drop_length_app2 {A} (l : list A) a b : drop (length l) ((l ++ [a]) ++ [b]) = [a; b].
Proof. by rewrite <- app_assoc, drop_app_length. Qed.
End sent.

(** The scenario of the specification: the raw row
    [{"Order No": "1", "Qty": "2"}] under the mapping
    [{order_id: "Order No", qty: "Qty"}] becomes [{order_id: "1", qty: "2"}]. *)
Example scenario_order_row :
  fullMappedData [ex_row] ex_mapping
  = [ <["order_id" := JStr "1"]> (<["qty" := JStr "2"]> ∅) ].
Proof. vm_compute. reflexivity. Qed.

(** The scenario of the specification: with [sku] unmapped the mapped rows
    hold no [sku] key. *)
Example scenario_sku_unmapped :
  (fun out : record => out !! "sku") <$> fullMappedData [ex_row] ex_mapping = [None].
Proof. vm_compute. reflexivity. Qed.

(** ** C1: what the mapping engine computes *)





(** ** C2: the preview and the commit use one mapping function *)

Lemma handleSaveMapping_session s entries :
  mappingData (sess (handleSaveMapping entries s)) = Some (newMapping entries)
  /\ apiData (sess (handleSaveMapping entries s)) = apiData (sess s)
  /\ previewData (sess (handleSaveMapping entries s)) =
       match apiData (sess s) with
       | Some rows => Some (remap_rows rows (newMapping entries))
       | None => previewData (sess s)
       end.
Proof.
  destruct s as [cfg [a mm p] st c v w]. unfold handleSaveMapping, reprocessPreviewWithMapping.
  simpl. destruct a as [rows|]; simpl; [done|]. destruct p; done.
Qed.


Lemma handleSaveMapping_frame s entries :
  config (handleSaveMapping entries s) = config s
  /\ ctl (handleSaveMapping entries s) = ctl s
  /\ wld (handleSaveMapping entries s) = wld s
  /\ stor (handleSaveMapping entries s) = stor s.
Proof.
  destruct s as [cfg [a mm p] st c v w]. unfold handleSaveMapping, reprocessPreviewWithMapping.
  simpl. destruct a as [rows|]; simpl; [done|]. destruct p; done.
Qed.


(** ** C9: an empty selection in the mapping editor *)



(** ** C3: overlapping preview fetches *)

Lemma fetchAndPreview_k_ok res s :
  sess (fetchAndPreview_k (Replied true res) s) = session_of res.
Proof.
  destruct s as [cfg ss st c v w]. unfold fetchAndPreview_k, displayPreview, session_of; simpl.
  destruct (r_mapping res); simpl; [destruct (r_preview res)|]; reflexivity.
Qed.

Lemma deliver_preview_ok s rid res :
  pending (wld s) !! rid = Some KPreview ->
  sess (step (Deliver rid (Replied true res)) s) = session_of res.
Proof. intros H. simpl. rewrite H. simpl. apply fetchAndPreview_k_ok. Qed.

Lemma fetchAndPreview_k_world o s : wld (fetchAndPreview_k o s) = wld s.
Proof.
  destruct s as [cfg ss st c v w]. unfold fetchAndPreview_k, displayPreview; simpl.
  destruct o as [msg|msg|[] res]; simpl; try reflexivity.
  destruct (r_mapping res); simpl; [destruct (r_preview res)|]; reflexivity.
Qed.

Lemma deliver_preview_world s rid o :
  pending (wld s) !! rid = Some KPreview ->
  pending (wld (step (Deliver rid o) s)) = delete rid (pending (wld s))
  /\ nextId (wld (step (Deliver rid o) s)) = nextId (wld s)
  /\ net (wld (step (Deliver rid o) s)) = net (wld s).
Proof.
  intros H. unfold step. rewrite H. unfold resume. rewrite fetchAndPreview_k_world.
  by destruct s as [cfg ss st c v [pend n nt dl loc]].
Qed.

Lemma fetchAndPreview_sent s fd :
  previewModal (ctl s) = true ->
  sent_since s (fetchAndPreview fd s) = [ReqPreview (apiEndpoint (config s)) fd]
  /\ pending (wld (fetchAndPreview fd s)) = <[nextId (wld s) := KPreview]> (pending (wld s))
  /\ nextId (wld (fetchAndPreview fd s)) = S (nextId (wld s))
  /\ config (fetchAndPreview fd s) = config s
  /\ ctl (fetchAndPreview fd s) = ctl s
  /\ sess (fetchAndPreview fd s) = sess s.
Proof.
  destruct s as [cfg ss st [pm mg di dd f] v [pend n nt dl loc]]; simpl. intros ->.
  unfold fetchAndPreview, sent_since; simpl. by rewrite drop_length_app.
Qed.

(** C3, as the code has it.  A fetch A is issued, a fetch B is issued before
    A resolves, B resolves, then A resolves, both with a success status.  The
    two requests carry the form data only (no session token), the response
    of B is written into the session when it arrives, and the response of A,
    though stale, overwrites it: the session ends with A's result.  In
    general every successful response to a pending preview request is
    written into [apiData], [mappingData] and [previewData]; none is
    discarded. *)
Theorem C3_last_response_wins (s : state) (fA fB : form_data) (resA resB : result) :
  previewModal (ctl s) = true ->
  let s1 := fetchAndPreview fA s in
  let s2 := fetchAndPreview fB s1 in
  let s3 := step (Deliver (S (nextId (wld s))) (Replied true resB)) s2 in
  let s4 := step (Deliver (nextId (wld s)) (Replied true resA)) s3 in
  sent_since s s2 = [ReqPreview (apiEndpoint (config s)) fA;
                     ReqPreview (apiEndpoint (config s)) fB]
  /\ sess s3 = session_of resB
  /\ sess s4 = session_of resA
  /\ (forall s' rid res,
        pending (wld s') !! rid = Some KPreview ->
        sess (step (Deliver rid (Replied true res)) s') = session_of res).
Proof.
  intros Hpm s1 s2 s3 s4.
  destruct (fetchAndPreview_sent s fA Hpm) as (Hn1 & Hp1 & Hi1 & Hc1 & Hctl1 & _).
  assert (previewModal (ctl s1) = true) as Hpm1 by (unfold s1; by rewrite Hctl1).
  destruct (fetchAndPreview_sent s1 fB Hpm1) as (Hn2 & Hp2 & Hi2 & Hc2 & _ & _).
  fold s1 in Hp1, Hi1. fold s2 in Hp2, Hi2.
  assert (pending (wld s2) !! S (nextId (wld s)) = Some KPreview) as H2.
  { rewrite Hp2, Hi1. apply lookup_insert_eq. }
  split; [|split; [|split]].
  - destruct s as [cfg ss st [pm mg di dd f] v [pend n nt dl loc]]. simpl in Hpm. subst pm.
    unfold sent_since. simpl. by rewrite drop_length_app2.
  - by apply deliver_preview_ok.
  - apply deliver_preview_ok. unfold s3.
    destruct (deliver_preview_world s2 _ (Replied true resB) H2) as (-> & _ & _).
    rewrite lookup_delete_ne by lia. rewrite Hp2, Hi1, lookup_insert_ne by lia.
    rewrite Hp1. apply lookup_insert_eq.
  - apply deliver_preview_ok.
Qed.

Lemma C3_witness :
  let s2 := fetchAndPreview (read_form false (set_formv formB page0))
              (fetchAndPreview (read_form false (set_formv formA page0)) page0) in
  sess (step (Deliver 1 (Replied true replyA))
          (step (Deliver 2 (Replied true replyB)) s2)) = session_of replyA.
Proof.
  exact (proj1 (proj2 (proj2
    (C3_last_response_wins page0 (read_form false (set_formv formA page0))
       (read_form false (set_formv formB page0)) replyA replyB eq_refl)))).
Defined.

(** The claim as the specification states it fails on the race: once B and
    then A have resolved, the session holds A's rows, not B's. *)
Lemma C3_counterexample :
  net (wld (run race page0))
  = [ ReqConfigs;
      ReqPreview "/import/orders/api" (read_form false (set_formv formA page0));
      ReqPreview "/import/orders/api" (read_form false (set_formv formB page0)) ]
  /\ sess (run (take 5 race) page0) = session_of replyB
  /\ sess (run race page0) = session_of replyA
  /\ session_of replyA <> session_of replyB.
Proof.
  split; [vm_compute; reflexivity|]. split; [vm_compute; reflexivity|].
  split; [vm_compute; reflexivity|].
  intros H. apply (f_equal (fun x => (apiData x ≫= (fun l => l !! 0)) ≫= (fun r : record => r !! "Order No"))) in H.
  vm_compute in H. discriminate.
Qed.

(** ** C6: a failed preview leaves the session alone *)

Lemma fetchAndPreview_k_failed o s :
  failed o = true ->
  sess (fetchAndPreview_k o s) = sess s
  /\ stor (fetchAndPreview_k o s) = stor s
  /\ previewError (vw (fetchAndPreview_k o s)) = Some (failure_message msg_fetch_failed o)
  /\ previewLoading (vw (fetchAndPreview_k o s)) = false.
Proof.
  destruct s as [cfg ss st c v w]. destruct o as [msg|msg|[] res]; simpl; done.
Qed.

(** C6.  When the response to a pending preview request is a failure (the
    network failed, the body could not be read, or the status is not a
    success), the error line shows the message of the failure and
    [apiData], [mappingData] and [previewData] keep the values they had;
    sending the request did not change them either, so a whole failed call
    leaves the session as it was. *)
Theorem C6_failed_preview_keeps_session (s : state) (rid : nat) (o : fetch_outcome) :
  pending (wld s) !! rid = Some KPreview ->
  failed o = true ->
  let s' := step (Deliver rid o) s in
  sess s' = sess s
  /\ previewError (vw s') = Some (failure_message msg_fetch_failed o)
  /\ previewLoading (vw s') = false
  /\ sent_since s s' = []
  /\ (forall s0 fd,
        previewModal (ctl s0) = true ->
        sess (fetchAndPreview fd s0) = sess s0
        /\ sess (step (Deliver (nextId (wld s0)) o) (fetchAndPreview fd s0)) = sess s0).
Proof.
  intros Hr Hf s'.
  assert (forall s1 r, pending (wld s1) !! r = Some KPreview ->
                       sess (step (Deliver r o) s1) = sess s1) as Hkeep.
  { intros s1 r H1. unfold step. rewrite H1. unfold resume.
    destruct (fetchAndPreview_k_failed o (settle r s1) Hf) as (-> & _).
    by destruct s1. }
  split; [by apply Hkeep|].
  assert (vw s' = vw (fetchAndPreview_k o (settle rid s))
          /\ wld s' = wld (settle rid s)) as [Hv Hw].
  { unfold s', step. rewrite Hr. unfold resume. by rewrite fetchAndPreview_k_world. }
  destruct (fetchAndPreview_k_failed o (settle rid s) Hf) as (_ & _ & He & Hl).
  rewrite Hv. split; [exact He|]. split; [exact Hl|]. split.
  - unfold sent_since. rewrite Hw.
    destruct s as [cfg ss st c v [pend n nt dl loc]]. simpl. by rewrite drop_all.
  - intros s0 fd Hpm.
    destruct (fetchAndPreview_sent s0 fd Hpm) as (_ & Hp & _ & _ & _ & Hs).
    split; [exact Hs|]. rewrite Hkeep; [exact Hs|].
    rewrite Hp. apply lookup_insert_eq.
Qed.

Lemma C6_witness :
  let s := run [Input formA; ClickFetchPreview true] page0 in
  let s' := step (Deliver 1 (Replied false (error_reply "upstream timeout"))) s in
  sess s' = sess s /\ previewError (vw s') = Some "upstream timeout".
Proof.
  destruct (C6_failed_preview_keeps_session
              (run [Input formA; ClickFetchPreview true] page0) 1
              (Replied false (error_reply "upstream timeout")) eq_refl eq_refl)
    as (Hs & He & _).
  split; [exact Hs|exact He].
Defined.

(** ** C7: which saved configurations a module lists *)

Lemma keep_config_visible moduleType cfg :
  keep_config moduleType cfg = true <-> visible moduleType cfg.
Proof.
  unfold keep_config, visible. destruct (sc_module_type cfg) as [t|]; [|simpl; tauto].
  destruct t as [|a t]; cbn -[String.eqb]; [tauto|].
  rewrite String.eqb_eq. split; [intros ->; tauto|]. intros [[= ->]|[|]]; done.
Qed.

Lemma filter_keep_config moduleType configs :
  List.filter (keep_config moduleType) configs = filter (visible moduleType) configs.
Proof.
  induction configs as [|c configs IH]; [done|]. simpl. rewrite filter_cons, IH.
  destruct (keep_config moduleType c) eqn:E; case_decide as Hv; try done.
  - apply keep_config_visible in E. done.
  - apply keep_config_visible in Hv. congruence.
Qed.

Lemma resume_after_saved_allConfigs k s :
  allConfigs (stor (resume_after_saved k s)) = allConfigs (stor s).
Proof. destruct s as [cfg ss [ac cd] c v w]. by destruct k. Qed.

(** C7.  When the backend answers the list request with [configs], the
    configurations the module keeps ([allConfigs], and the rows of the
    manage table) are exactly those of [configs] whose [module_type] is the
    active module type or is not set, in the order of [configs]: the kept
    list is [configs] filtered, nothing is sorted or added. *)
Theorem C7_list_filters_by_module (s : state) (rid : nat) (k : after_saved)
    (ok : bool) (res : result) (configs : list saved_config) :
  pending (wld s) !! rid = Some (KLoadSaved k) ->
  r_success res = true ->
  r_configs res = Some configs ->
  let shown := filter (visible (moduleType (config s))) configs in
  allConfigs (stor (step (Deliver rid (Replied ok res)) s)) = shown
  /\ (forall c, c ∈ shown <-> c ∈ configs /\ visible (moduleType (config s)) c)
  /\ shown `sublist_of` configs
  /\ (forall s', config s' = config s ->
        configsPanel (vw (loadConfigsTable_k (Replied ok res) s'))
        = match shown with [] => PanelEmpty | _ :: _ => PanelTable shown end).
Proof.
  intros Hr Hs Hc shown. split; [|split; [|split]].
  - unfold step. rewrite Hr. unfold resume. rewrite resume_after_saved_allConfigs.
    unfold loadSavedConfigs_k. rewrite Hs, Hc.
    destruct s as [cfg ss [ac cd] c v w]. simpl. apply filter_keep_config.
  - intros c. unfold shown. rewrite list_elem_of_filter. tauto.
  - apply sublist_filter.
  - intros s' Hcfg. unfold loadConfigsTable_k. rewrite Hs, Hc, Hcfg, filter_keep_config.
    fold shown. destruct s' as [cfg ss st c v w]. by destruct shown.
Qed.

Lemma C7_witness :
  allConfigs (stor (step (Deliver 0 (Replied true
                                       (configs_reply [cfg_stock; cfg_legacy; cfg_orders])))
                      page0))
  = filter (visible "orders") [cfg_stock; cfg_legacy; cfg_orders].
Proof.
  exact (proj1 (C7_list_filters_by_module page0 0 SavedDone true
                  (configs_reply [cfg_stock; cfg_legacy; cfg_orders])
                  [cfg_stock; cfg_legacy; cfg_orders] eq_refl eq_refl eq_refl)).
Defined.

(** The untagged configuration and the one of the module are listed, in the
    order of the backend; the one of another module is not. *)
Example scenario_list_orders :
  filter (visible "orders") [cfg_stock; cfg_legacy; cfg_orders] = [cfg_legacy; cfg_orders].
Proof. vm_compute. reflexivity. Qed.

(** ** C5: a commit without data *)

(** Without [apiData] or without [mappingData] the commit stops at the
    guard: the operator is told there is nothing to import and nothing is
    sent. *)
Lemma commit_without_session s answer :
  apiData (sess s) = None \/ mappingData (sess s) = None ->
  handleConfirmImport answer s = alert AlertNoData s
  /\ sent_since s (handleConfirmImport answer s) = [].
Proof.
  destruct s as [cfg [a m p] st c v [pend n nt dl loc]]. simpl.
  unfold handleConfirmImport, sent_since. simpl.
  intros [->| ->]; [|destruct a]; simpl; by rewrite drop_all.
Qed.

(** C5, at the failing input.  The preview returned no rows ([apiData] is
    the empty array) together with a mapping; the guard of
    [handleConfirmImport] tests [!apiData], which an empty array passes, so
    the operator is asked to confirm the import of 0 records and the import
    request is sent with no data, where the claim asks for a NoDataError
    before any network call. *)
Theorem C5_empty_rows_are_committed :
  sess (run (take 3 empty_commit) page0)
  = {| apiData := Some []; mappingData := Some ex_mapping; previewData := Some [] |}
  /\ sent_since (run (take 3 empty_commit) page0) (run empty_commit page0)
     = [ ReqImport "/import/orders/api"
           {| ib_platform := "shopee"; ib_shop_name := ""; ib_data := [];
              ib_mapping := ex_mapping |} ]
  /\ dialogs (wld (run empty_commit page0)) = [AskImport 0 true].
Proof. vm_compute. repeat split; reflexivity. Qed.

(** ** C4: the commit is single-flight *)

Lemma reachable_run es s : reachable s -> reachable (run es s).
Proof.
  revert s. induction es as [|e es IH]; intros s Hs; [done|].
  simpl. apply IH. by constructor.
Qed.

(** A commit either stops before the request and leaves the controls and
    the requests in flight alone, or disables its button and sends the
    import request, and nothing else. *)
Lemma handleConfirmImport_outcome s answer :
  let s1 := handleConfirmImport answer s in
  (ctl s1 = ctl s /\ sent_since s s1 = [] /\ pending (wld s1) = pending (wld s))
  \/ (btnConfirmImport_disabled (ctl s1) = true
      /\ (exists endpoint body, sent_since s s1 = [ReqImport endpoint body])
      /\ pending (wld s1) = <[nextId (wld s) := KImport]> (pending (wld s))).
Proof.
  destruct s as [cfg [a m p] st [pm mg di dd f] v [pend n nt dl loc]].
  unfold handleConfirmImport, sent_since. simpl.
  destruct a; [|left; simpl; by rewrite drop_all].
  destruct m; [|left; simpl; by rewrite drop_all].
  destruct (requirePlatform cfg && negb (Js.truthy (apiPlatform f)));
    [left; simpl; by rewrite drop_all|].
  destruct (requireShopName cfg && negb (Js.truthy (apiShopName f)));
    [left; simpl; by rewrite drop_all|].
  destruct answer; simpl; [|left; by rewrite drop_all].
  right. rewrite drop_length_app. eauto.
Qed.

Lemma handleConfirmImport_k_enables o s :
  btnConfirmImport_disabled (ctl (handleConfirmImport_k o s)) = false.
Proof.
  destruct s as [cfg ss st [pm mg di dd f] v w]. unfold handleConfirmImport_k.
  destruct o as [msg|msg|[] res]; simpl; try done; by destruct pm.
Qed.

(** C4.  In every state the page can reach: at most one import request is
    in flight, and the commit button is disabled exactly while one is; as
    long as it is, a click on the button changes nothing (no request is
    sent, none is queued); two clicks in a row of which the first started
    the request send exactly one request, the import; and when the response
    arrives, success or failure, the button is enabled again and no import
    request is left in flight. *)
Theorem C4_commit_single_flight (s : state) :
  reachable s ->
  single is_import (pending (wld s))
  /\ (btnConfirmImport_disabled (ctl s) = true <-> waiting is_import (pending (wld s)))
  /\ (waiting is_import (pending (wld s)) ->
      forall answer, step (ClickConfirmImport answer) s = s)
  /\ (forall a1 a2,
        let s1 := step (ClickConfirmImport a1) s in
        let s2 := step (ClickConfirmImport a2) s1 in
        btnConfirmImport_disabled (ctl s) = false ->
        btnConfirmImport_disabled (ctl s1) = true ->
        s2 = s1 /\ exists endpoint body, sent_since s s2 = [ReqImport endpoint body])
  /\ (forall rid o,
        pending (wld s) !! rid = Some KImport ->
        let s' := step (Deliver rid o) s in
        btnConfirmImport_disabled (ctl s') = false
        /\ ~ waiting is_import (pending (wld s'))).
Proof.
  intros Hs. destruct (reachable_Inv s Hs) as ((Hf & Hi & Hi1 & _) & _).
  split; [exact Hi1|]. split; [exact Hi|]. split; [|split].
  - intros Hw answer. apply Hi in Hw. simpl. by rewrite Hw.
  - intros a1 a2 s1 s2 Hen Hdis.
    assert (s2 = s1) as Heq by (unfold s2; simpl; by rewrite Hdis).
    split; [exact Heq|]. rewrite Heq. unfold s1 in *. simpl in *. rewrite Hen in *.
    destruct (handleConfirmImport_outcome s a1) as [(Hc & _)|(_ & Hsent & _)]; [|done].
    rewrite Hc in Hdis. congruence.
  - intros rid o Hr s'.
    assert (btnConfirmImport_disabled (ctl s') = false) as Hen.
    { unfold s', step. rewrite Hr. apply handleConfirmImport_k_enables. }
    split; [exact Hen|].
    assert (reachable s') as Hs' by (by constructor).
    destruct (reachable_Inv s' Hs') as ((_ & Hi' & _) & _).
    intros Hw. apply Hi' in Hw. congruence.
Qed.

Lemma C4_witness :
  let s := run commit_in_flight page0 in
  btnConfirmImport_disabled (ctl s) = true
  /\ step (ClickConfirmImport true) s = s
  /\ btnConfirmImport_disabled (ctl (step (Deliver 2 (Rejected "offline")) s)) = false.
Proof.
  destruct (C4_commit_single_flight (run commit_in_flight page0)
              (reachable_run commit_in_flight page0 (reachable_init no_custom true true)))
    as (_ & Hi & Hnoop & _ & Hdone).
  assert (waiting is_import (pending (wld (run commit_in_flight page0)))) as Hw.
  { exists 2, KImport. split; reflexivity. }
  split; [by apply Hi|]. split; [by apply Hnoop|].
  apply (Hdone 2 (Rejected "offline")). reflexivity.
Defined.

(** ** C8 and C10: deleting a saved configuration *)

Ltac sent_simpl :=
  unfold sent_since; simpl; rewrite ?drop_all, ?drop_length_app, ?drop_length_app2.



Lemma loadSavedConfigs_k_frame o s :
  loadSavedConfigs_k o s
  = set_allConfigs (listed (moduleType (config s)) (allConfigs (stor s)) o) s.
Proof.
  assert (s = set_allConfigs (allConfigs (stor s)) s) as Hid
    by (by destruct s as [cfg ss [ac cd] c v w]).
  unfold loadSavedConfigs_k, listed. destruct o as [msg|msg|ok res]; try done.
  destruct (r_success res), (r_configs res) as [all|]; try done.
  by rewrite filter_keep_config.
Qed.








(** The delete scenario of the specification: the record of configuration 1
    is fetched and shown, the operator confirms, the DELETE names
    configuration 1, and once the backend lists the rest the dropdown no
    longer holds it. *)
Example scenario_delete :
  let s := run delete_in_flight page0 in
  net (wld s) = [ReqConfigs; ReqConfigGet 1; ReqConfigDelete 1]
  /\ deletePrompt (vw s) = Some cfg_orders
  /\ allConfigs (stor (run [ Deliver 2 (Replied true success_reply);
                             Deliver 3 (Replied true (configs_reply [cfg_stock; cfg_legacy]));
                             Deliver 4 (Replied true (configs_reply [cfg_stock; cfg_legacy])) ] s))
     = [cfg_legacy].
Proof. vm_compute. repeat split; reflexivity. Qed.



(** * Further properties of the module *)

(** ** What is sent, and when *)

Ltac sends_none := sent_simpl; apply sends_nothing.

Ltac sends_by rule :=
  sent_simpl;
  match goal with
  | |- sends ?s _ _ => by apply (rule s)
  end.

(** Every event sends what [sends] allows, and nothing else. *)
Lemma step_sends e s : sends s e (sent_since s (step e s)).
Proof.
  destruct s as [cfg [a m p] [ac cd] [pm mm di dd f] v [pend n nt dl loc]].
  destruct e; simpl.
  - sends_none.
  - unfold handleFetchPreview, fetchAndPreview. destruct valid, pm; try sends_none.
    sends_by sends_fetch_preview.
  - unfold handlePreviewCache, fetchAndPreview; simpl.
    destruct (Js.truthy (apiUrl f)) eqn:Hu, pm; try sends_none.
    sends_by sends_preview_cache.
  - unfold handleEditMapping; simpl. destruct m; sends_none.
  - unfold handleSaveMapping, reprocessPreviewWithMapping; simpl.
    destruct a; simpl; [sends_none|]. destruct p; sends_none.
  - destruct di; [sends_none|]. unfold handleConfirmImport; simpl.
    destruct a as [rows|]; [|sends_none]. destruct m as [m|]; [|sends_none].
    destruct (requirePlatform cfg && negb (Js.truthy (apiPlatform f))) eqn:H1; [sends_none|].
    destruct (requireShopName cfg && negb (Js.truthy (apiShopName f))) eqn:H2; [sends_none|].
    destruct answer; [|sends_none].
    sends_by (fun s => sends_import s rows m).
  - destruct value as [z|]; [|sends_none]. sends_by (fun s => sends_select s z).
  - unfold handleSaveConfig; simpl.
    destruct (requireShopName cfg && negb (Js.truthy (apiShopName f))) eqn:H1; [sends_none|].
    destruct (requirePlatform cfg && negb (Js.truthy (apiPlatform f))) eqn:H2; [sends_none|].
    destruct (Js.truthy (apiUrl f)) eqn:H3; simpl; [|sends_none].
    sends_by (fun s => sends_save s now).
  - unfold openManageConfigsModal; simpl. destruct mm; [|sends_none].
    sends_by sends_manage.
  - sends_by (fun s => sends_view s configId).
  - sends_by (fun s => sends_delete_get s configId).
  - destruct dd; [sends_none|]. unfold confirmDeleteConfig; simpl.
    destruct cd as [X|]; [|sends_none].
    sends_by (fun s => sends_confirm_delete s X).
  - destruct (pend !! rid) as [k|] eqn:Hr; [|sends_none].
    destruct k as [| |k| | |k| | |]; simpl.
    + unfold fetchAndPreview_k, displayPreview.
      destruct o as [msg|msg|[] res]; simpl; try sends_none.
      destruct (r_mapping res); simpl; [destruct (r_preview res)|]; sends_none.
    + unfold handleConfirmImport_k.
      destruct o as [msg|msg|[] res]; simpl; try sends_none.
      destruct pm; sends_none.
    + unfold loadSavedConfigs_k.
      destruct k, o as [msg|msg|ok res]; simpl; try sends_none;
        destruct (r_success res), (r_configs res); sends_none.
    + unfold handleConfigSelect_k.
      destruct o as [msg|msg|ok res]; simpl; try sends_none.
      destruct (r_success res), (r_config res); sends_none.
    + unfold handleSaveConfig_k.
      destruct o as [msg|msg|ok res]; simpl; try sends_none.
      destruct (r_success res) eqn:Hs; [|sends_none].
      sends_by (fun s => sends_reload_saved s rid ok res).
    + unfold loadConfigsTable_k.
      destruct k.
      * destruct o as [msg|msg|ok res]; simpl; try sends_none;
          destruct (r_success res), (r_configs res) as [all|]; simpl; try sends_none;
          destruct (List.filter _ all); sends_none.
      * assert (sends
                  {| config := cfg; sess := {| apiData := a; mappingData := m; previewData := p |};
                     stor := {| allConfigs := ac; configToDelete := cd |};
                     ctl := {| previewModal := pm; manageConfigsModal := mm;
                               btnConfirmImport_disabled := di;
                               btnConfirmDelete_disabled := dd; formv := f |};
                     vw := v;
                     wld := {| pending := pend; nextId := n; net := nt; dialogs := dl;
                               location := loc |} |}
                  (Deliver rid o) [ReqConfigs]) as Hsend
          by (by apply sends_reload_dropdown).
        destruct o as [msg|msg|ok res]; simpl; try (sent_simpl; exact Hsend);
          destruct (r_success res), (r_configs res) as [all|]; simpl;
          try (sent_simpl; exact Hsend);
          destruct (List.filter _ all); sent_simpl; exact Hsend.
    + unfold handleViewConfig_k.
      destruct o as [msg|msg|ok res]; simpl; try sends_none.
      destruct (r_success res), (r_config res); sends_none.
    + unfold handleDeleteConfig_k.
      destruct o as [msg|msg|ok res]; simpl; try sends_none.
      destruct (r_success res), (r_config res); sends_none.
    + unfold confirmDeleteConfig_k.
      destruct o as [msg|msg|ok res]; simpl; try sends_none.
      destruct (r_success res) eqn:Hs; simpl; [|sends_none].
      destruct cd as [X|]; [|sends_none].
      sends_by (fun s => sends_reload_table s rid ok res X).
Qed.

Lemma truthy_nonempty x : Js.truthy x = true <-> x <> "".
Proof. destruct x; simpl; split; congruence. Qed.

Lemma required_field req x : req && negb (Js.truthy x) = false -> req = true -> x <> "".
Proof. intros H ->. simpl in H. apply truthy_nonempty. by destruct (Js.truthy x). Qed.

(** X1.  A preview request leaves the page only through the two preview
    buttons and only when the preview dialog exists: from the fetch button
    with a valid form, with [use_cache] false, or from the cache button with
    a non-empty API URL, with [use_cache] true; it goes to the configured
    endpoint, carries the values of the form, and is the only request of
    that event. *)
Theorem X1_preview_only_when_valid (e : event) (s : state)
    (endpoint : string) (fd : form_data) :
  ReqPreview endpoint fd ∈ sent_since s (step e s) ->
  previewModal (ctl s) = true
  /\ endpoint = apiEndpoint (config s)
  /\ sent_since s (step e s) = [ReqPreview endpoint fd]
  /\ ((e = ClickFetchPreview true /\ fd = read_form false s)
      \/ (e = ClickPreviewCache /\ fd = read_form true s
          /\ apiUrl (formv (ctl s)) <> "")).
Proof.
  intros Hin. pose proof (step_sends e s) as Hs.
  destruct Hs; try (by apply elem_of_nil in Hin);
    apply list_elem_of_singleton in Hin; try discriminate; injection Hin as -> ->.
  - eauto 10.
  - repeat split; try done. right. repeat split; try done. by apply truthy_nonempty.
Qed.

Lemma X1_witness :
  previewModal (ctl page_A) = true
  /\ sent_since page_A (step ClickPreviewCache page_A)
     = [ReqPreview "/import/orders/api" (read_form true page_A)].
Proof.
  assert (ReqPreview "/import/orders/api" (read_form true page_A)
            ∈ sent_since page_A (step ClickPreviewCache page_A)) as Hin.
  { apply list_elem_of_singleton. reflexivity. }
  destruct (X1_preview_only_when_valid ClickPreviewCache page_A _ _ Hin) as (Hm & _ & Hs & _).
  split; [exact Hm|exact Hs].
Defined.

(** What a commit that goes through leaves behind. *)
Lemma handleConfirmImport_goes s rows m :
  btnConfirmImport_disabled (ctl s) = false ->
  apiData (sess s) = Some rows -> mappingData (sess s) = Some m ->
  requirePlatform (config s) && negb (Js.truthy (apiPlatform (formv (ctl s)))) = false ->
  requireShopName (config s) && negb (Js.truthy (apiShopName (formv (ctl s)))) = false ->
  let s' := step (ClickConfirmImport true) s in
  dialogs (wld s') = (dialogs (wld s) ++ [AskImport (length rows) true])%list
  /\ btnConfirmImport_disabled (ctl s') = true
  /\ sess s' = sess s.
Proof.
  destruct s as [cfg [a mm p] st [pm mg di dd f] v [pend n nt dl loc]]. simpl.
  intros -> -> -> H1 H2. unfold handleConfirmImport. simpl. rewrite H1, H2. simpl.
  by rewrite fullMappedData_length.
Qed.

(** X2.  An import request is sent by nothing but a click on the enabled
    commit button that the operator confirms: the session then holds raw
    rows and a mapping, a required platform or shop name is not empty, the
    confirmation dialog named the number of raw rows, the body holds every
    raw row mapped under the current mapping together with that mapping,
    and the click leaves the button disabled. *)
Theorem X2_import_only_after_confirmation (e : event) (s : state)
    (endpoint : string) (body : import_body) :
  ReqImport endpoint body ∈ sent_since s (step e s) ->
  e = ClickConfirmImport true
  /\ btnConfirmImport_disabled (ctl s) = false
  /\ endpoint = apiEndpoint (config s)
  /\ sent_since s (step e s) = [ReqImport endpoint body]
  /\ (requirePlatform (config s) = true -> apiPlatform (formv (ctl s)) <> "")
  /\ (requireShopName (config s) = true -> apiShopName (formv (ctl s)) <> "")
  /\ exists rows m,
       apiData (sess s) = Some rows /\ mappingData (sess s) = Some m
       /\ body = import_body_of s rows m
       /\ length (ib_data body) = length rows
       /\ dialogs (wld (step e s))
          = (dialogs (wld s) ++ [AskImport (length rows) true])%list
       /\ btnConfirmImport_disabled (ctl (step e s)) = true.
Proof.
  intros Hin. pose proof (step_sends e s) as Hs.
  destruct Hs as [| | |rows m Hen Ha Hm H1 H2| | | | | | | | |];
    try (by apply elem_of_nil in Hin);
    apply list_elem_of_singleton in Hin; try discriminate; injection Hin as -> ->.
  destruct (handleConfirmImport_goes s rows m Hen Ha Hm H1 H2) as (Hd & Hdis & _).
  split; [done|]. split; [done|]. split; [done|]. split; [done|].
  split; [by apply required_field|]. split; [by apply required_field|].
  exists rows, m. repeat split; try done. apply fullMappedData_length.
Qed.

Lemma X2_witness :
  exists rows m,
    apiData (sess page_previewed) = Some rows /\ mappingData (sess page_previewed) = Some m
    /\ dialogs (wld (step (ClickConfirmImport true) page_previewed))
       = (dialogs (wld page_previewed) ++ [AskImport (length rows) true])%list.
Proof.
  assert (ReqImport "/import/orders/api" (import_body_of page_previewed rowsA ex_mapping)
            ∈ sent_since page_previewed (step (ClickConfirmImport true) page_previewed))
    as Hin.
  { apply list_elem_of_singleton. reflexivity. }
  destruct (X2_import_only_after_confirmation _ _ _ _ Hin)
    as (_ & _ & _ & _ & _ & _ & rows & m & Ha & Hm & _ & _ & Hd & _).
  exists rows, m. split; [exact Ha|]. split; [exact Hm|exact Hd].
Defined.

Lemma keep_config_tag mt c other :
  sc_module_type c = Some mt ->
  keep_config mt c = true
  /\ (mt <> "" -> other <> mt -> keep_config other c = false).
Proof.
  intros Ht. unfold keep_config. rewrite Ht. split.
  - rewrite String.eqb_refl. apply orb_true_r.
  - intros Hne Ho. apply truthy_nonempty in Hne. simpl. rewrite Hne. simpl.
    apply String.eqb_neq. congruence.
Qed.

(** X11.  A save request is sent by nothing but the save button, and only
    with a non-empty API URL and, where the module requires them, a
    non-empty platform and shop name; its body carries the values of the
    form and the module type of the page as its tag, so a record stored
    with that tag passes the list filter of this module and, the tag being
    non-empty, of no other module. *)
Theorem X11_save_request_valid_and_tagged (e : event) (s : state) (body : save_body) :
  ReqConfigSave body ∈ sent_since s (step e s) ->
  (exists now, e = ClickSaveConfig now /\ body = save_body_of s now)
  /\ sent_since s (step e s) = [ReqConfigSave body]
  /\ sb_api_url body = apiUrl (formv (ctl s)) /\ sb_api_url body <> ""
  /\ sb_module_type body = moduleType (config s)
  /\ (requirePlatform (config s) = true ->
      sb_platform body = Some (apiPlatform (formv (ctl s)))
      /\ apiPlatform (formv (ctl s)) <> "")
  /\ (requireShopName (config s) = true ->
      sb_shop_name body = Some (apiShopName (formv (ctl s)))
      /\ apiShopName (formv (ctl s)) <> "")
  /\ (forall c other,
        sc_module_type c = Some (sb_module_type body) ->
        keep_config (moduleType (config s)) c = true
        /\ (moduleType (config s) <> "" -> other <> moduleType (config s) ->
            keep_config other c = false)).
Proof.
  intros Hin. pose proof (step_sends e s) as Hs.
  destruct Hs as [| | | | | | |now H1 H2 H3| | | | |];
    try (by apply elem_of_nil in Hin);
    apply list_elem_of_singleton in Hin; try discriminate; injection Hin as ->.
  assert (forall req x, req && negb (Js.truthy x) = false -> req = true ->
                        Js.or_null x = Some x /\ x <> "") as Hreq.
  { intros req x H Hr. pose proof (required_field _ _ H Hr) as Hx. split; [|done].
    apply truthy_nonempty in Hx. unfold Js.or_null. by rewrite Hx. }
  split; [eauto|]. split; [done|]. split; [done|]. split; [by apply truthy_nonempty|].
  split; [done|]. split; [by apply Hreq|]. split; [by apply Hreq|].
  intros c other Ht. by apply keep_config_tag.
Qed.

Lemma X11_witness :
  sent_since page_A (step (ClickSaveConfig "1700000000000") page_A)
  = [ReqConfigSave (save_body_of page_A "1700000000000")]
  /\ sb_module_type (save_body_of page_A "1700000000000") = "orders".
Proof.
  assert (ReqConfigSave (save_body_of page_A "1700000000000")
            ∈ sent_since page_A (step (ClickSaveConfig "1700000000000") page_A)) as Hin.
  { apply list_elem_of_singleton. reflexivity. }
  destruct (X11_save_request_valid_and_tagged _ _ _ Hin) as (_ & Hs & _ & _ & Ht & _).
  split; [exact Hs|exact Ht].
Defined.

(** ** What an event leaves alone *)

(** The configuration and the two guarded dialogs never change; the session
    changes only when a mapping is saved or a preview response with a
    success status arrives. *)
Lemma step_keeps e s :
  config (step e s) = config s
  /\ previewModal (ctl (step e s)) = previewModal (ctl s)
  /\ manageConfigsModal (ctl (step e s)) = manageConfigsModal (ctl s)
  /\ (sess (step e s) = sess s
      \/ (exists entries, e = ClickSaveMapping entries)
      \/ (exists rid res, e = Deliver rid (Replied true res)
                          /\ pending (wld s) !! rid = Some KPreview)).
Proof.
  destruct s as [cfg [a m p] [ac cd] [pm mm di dd f] v [pend n nt dl loc]].
  destruct e; simpl.
  - tauto.
  - unfold handleFetchPreview, fetchAndPreview. destruct valid, pm; simpl; tauto.
  - unfold handlePreviewCache, fetchAndPreview; simpl.
    destruct (Js.truthy (apiUrl f)), pm; simpl; tauto.
  - unfold handleEditMapping; simpl. destruct m; simpl; tauto.
  - unfold handleSaveMapping, reprocessPreviewWithMapping; simpl.
    destruct a; simpl; [eauto 10|]. destruct p; simpl; eauto 10.
  - destruct di; [tauto|]. unfold handleConfirmImport; simpl.
    destruct a; [|simpl; tauto]. destruct m; [|simpl; tauto].
    destruct (requirePlatform cfg && negb (Js.truthy (apiPlatform f))); [simpl; tauto|].
    destruct (requireShopName cfg && negb (Js.truthy (apiShopName f))); [simpl; tauto|].
    destruct answer; simpl; tauto.
  - destruct value; simpl; tauto.
  - unfold handleSaveConfig; simpl.
    destruct (requireShopName cfg && negb (Js.truthy (apiShopName f))); [simpl; tauto|].
    destruct (requirePlatform cfg && negb (Js.truthy (apiPlatform f))); [simpl; tauto|].
    destruct (negb (Js.truthy (apiUrl f))); simpl; tauto.
  - unfold openManageConfigsModal; simpl. destruct mm; simpl; tauto.
  - tauto.
  - tauto.
  - destruct dd; [tauto|]. unfold confirmDeleteConfig; simpl.
    destruct cd as [X|]; simpl; tauto.
  - destruct (pend !! rid) as [k|] eqn:Hr; [|tauto].
    destruct k as [| |k| | |k| | |]; simpl.
    + unfold fetchAndPreview_k, displayPreview.
      destruct o as [msg|msg|[] res]; simpl; try tauto.
      destruct (r_mapping res); simpl; [destruct (r_preview res)|]; simpl; eauto 10.
    + unfold handleConfirmImport_k.
      destruct o as [msg|msg|[] res]; simpl; try tauto.
      destruct pm; simpl; tauto.
    + unfold loadSavedConfigs_k.
      destruct k, o as [msg|msg|ok res]; simpl; try tauto;
        destruct (r_success res), (r_configs res); simpl; tauto.
    + unfold handleConfigSelect_k.
      destruct o as [msg|msg|ok res]; simpl; try tauto.
      destruct (r_success res), (r_config res); simpl; tauto.
    + unfold handleSaveConfig_k.
      destruct o as [msg|msg|ok res]; simpl; try tauto.
      destruct (r_success res); simpl; tauto.
    + unfold loadConfigsTable_k.
      destruct k, o as [msg|msg|ok res]; simpl; try tauto;
        destruct (r_success res), (r_configs res) as [all|]; simpl; try tauto;
        destruct (List.filter _ all); simpl; tauto.
    + unfold handleViewConfig_k.
      destruct o as [msg|msg|ok res]; simpl; try tauto.
      destruct (r_success res), (r_config res); simpl; tauto.
    + unfold handleDeleteConfig_k.
      destruct o as [msg|msg|ok res]; simpl; try tauto.
      destruct (r_success res), (r_config res); simpl; tauto.
    + unfold confirmDeleteConfig_k.
      destruct o as [msg|msg|ok res]; simpl; try tauto.
      destruct (r_success res); simpl; [|tauto].
      destruct cd; simpl; tauto.
Qed.

(** X3.  The import session ([apiData], [mappingData], [previewData]) is
    changed by two events only: saving the mapping form, and the arrival of
    a success response to a pending preview request, which installs the
    data, the mapping and the preview of that response.  Every other event
    (a commit and its outcome, every operation on saved configurations, a
    failed preview) leaves the three variables as they were. *)
Theorem X3_session_changes_only_by_preview_or_edit (e : event) (s : state) :
  sess (step e s) = sess s
  \/ (exists entries, e = ClickSaveMapping entries)
  \/ (exists rid res,
        e = Deliver rid (Replied true res)
        /\ pending (wld s) !! rid = Some KPreview
        /\ sess (step e s) = session_of res).
Proof.
  destruct (step_keeps e s) as (_ & _ & _ & [H|[H|(rid & res & -> & Hr)]]); [tauto..|].
  right. right. exists rid, res. split; [done|]. split; [done|].
  by apply deliver_preview_ok.
Qed.

(** X4.  The configuration merged by [init] is never changed afterwards:
    after any events the page still works with the defaults overridden by
    the caller's options, and a dialog that was missing at [init] stays
    missing. *)
Theorem X4_config_never_mutated (es : list event) (customConfig : custom_config)
    (previewModalOk manageModalOk : bool) :
  let s := run es (init customConfig previewModalOk manageModalOk) in
  config s = merge_config DEFAULT_CONFIG customConfig
  /\ previewModal (ctl s) = previewModalOk
  /\ manageConfigsModal (ctl s) = manageModalOk.
Proof.
  simpl.
  assert (forall s0,
             config (run es s0) = config s0
             /\ previewModal (ctl (run es s0)) = previewModal (ctl s0)
             /\ manageConfigsModal (ctl (run es s0)) = manageConfigsModal (ctl s0)) as H.
  { induction es as [|e es IH]; intros s0; [done|]. simpl.
    destruct (IH (step e s0)) as (-> & -> & ->).
    destruct (step_keeps e s0) as (-> & -> & -> & _). done. }
  destruct (H (init customConfig previewModalOk manageModalOk)) as (-> & -> & ->). done.
Qed.

(** ** The outcome of a commit *)

Lemma handleConfirmImport_k_failed o s :
  failed o = true ->
  handleConfirmImport_k o s
  = set_btnConfirmImport_disabled false
      (alert (AlertFailure (failure_message msg_import_failed o)) s).
Proof. intros Hf. unfold handleConfirmImport_k. by destruct o as [msg|msg|[] res]. Qed.

(** X5.  When the import request fails (the network fails, the body cannot
    be read, or the status is not a success) the operator is shown the
    message of the failure, the page does not navigate, the session, the
    form and the saved configurations are untouched, nothing is sent, and
    the commit button is enabled again: the same commit can be retried. *)
Theorem X5_failed_import_keeps_state (s : state) (rid : nat) (o : fetch_outcome) :
  pending (wld s) !! rid = Some KImport ->
  failed o = true ->
  let s' := step (Deliver rid o) s in
  sess s' = sess s /\ stor s' = stor s /\ formv (ctl s') = formv (ctl s)
  /\ location (wld s') = location (wld s)
  /\ dialogs (wld s')
     = (dialogs (wld s) ++ [AlertFailure (failure_message msg_import_failed o)])%list
  /\ sent_since s s' = []
  /\ btnConfirmImport_disabled (ctl s') = false.
Proof.
  intros Hr Hf s'. unfold s', step. rewrite Hr. unfold resume.
  rewrite (handleConfirmImport_k_failed _ _ Hf).
  destruct s as [cfg ss st [pm mg di dd f] v [pend n nt dl loc]]. by sent_simpl.
Qed.

Lemma X5_witness :
  let s := run commit_in_flight page0 in
  let s' := step (Deliver 2 (Replied false (error_reply "duplicate batch"))) s in
  sess s' = sess s
  /\ dialogs (wld s') = (dialogs (wld s) ++ [AlertFailure "duplicate batch"])%list.
Proof.
  destruct (X5_failed_import_keeps_state (run commit_in_flight page0) 2
              (Replied false (error_reply "duplicate batch")) eq_refl eq_refl)
    as (Hs & _ & _ & _ & Hd & _).
  split; [exact Hs|exact Hd].
Defined.

(** X6.  When the import succeeds and the preview dialog exists, the
    operator is told how many records were imported and the page navigates:
    to the configured redirect URL if one is set; otherwise, if the response
    carries an import date, to the root filtered on that date; otherwise to
    the root.  The session is left as it was and the button is enabled. *)
Theorem X6_import_success_redirects (s : state) (rid : nat) (res : result) :
  pending (wld s) !! rid = Some KImport ->
  previewModal (ctl s) = true ->
  let s' := step (Deliver rid (Replied true res)) s in
  dialogs (wld s') = (dialogs (wld s) ++ [AlertImported (r_imported res)])%list
  /\ sess s' = sess s
  /\ btnConfirmImport_disabled (ctl s') = false
  /\ exists url,
       location (wld s') = Some url
       /\ (forall u, redirectUrl (config s) = Some u -> u <> "" -> url = u)
       /\ (Js.truthy_opt (redirectUrl (config s)) = false ->
           forall d, r_import_date res = Some d -> d <> "" ->
                     url = "/?import_from=" ++ d ++ "&import_to=" ++ d)
       /\ (Js.truthy_opt (redirectUrl (config s)) = false ->
           Js.truthy_opt (r_import_date res) = false -> url = "/").
Proof.
  intros Hr Hpm. simpl. rewrite Hr. simpl.
  destruct s as [cfg ss st [pm mg di dd f] v [pend n nt dl loc]]. simpl in *. subst pm.
  unfold handleConfirmImport_k. simpl. split; [done|]. split; [done|]. split; [done|].
  exists (redirect_target cfg res). split; [done|]. unfold redirect_target. split; [|split].
  - intros u -> Hu. apply truthy_nonempty in Hu. by rewrite Hu.
  - intros Hno d Hd Hne. apply truthy_nonempty in Hne.
    destruct (redirectUrl cfg) as [u|]; simpl in Hno; rewrite ?Hno, Hd; simpl; by rewrite Hne.
  - intros Hno Hnd. destruct (redirectUrl cfg) as [u|]; simpl in Hno; by rewrite ?Hno, Hnd.
Qed.

Lemma X6_witness :
  let s := run commit_in_flight page0 in
  location (wld (step (Deliver 2 (Replied true (import_reply 1 (Some "2026-01-31")))) s))
  = Some "/?import_from=2026-01-31&import_to=2026-01-31".
Proof.
  destruct (X6_import_success_redirects (run commit_in_flight page0) 2
              (import_reply 1 (Some "2026-01-31")) eq_refl eq_refl)
    as (_ & _ & _ & url & Hl & _ & Hd & _).
  cbv zeta. rewrite Hl. f_equal. apply (Hd eq_refl "2026-01-31" eq_refl). discriminate.
Defined.

(** ** The mapping editor and the preview *)


(** X8.  A mapping saved while a preview request is in flight does not
    survive the response: when the response arrives with a success status,
    the mapping, the raw rows and the preview of the response replace what
    the editor stored. *)
Theorem X8_late_preview_overwrites_edit (s : state) (entries : list (string * string))
    (rid : nat) (res : result) :
  pending (wld s) !! rid = Some KPreview ->
  let edited := step (ClickSaveMapping entries) s in
  mappingData (sess edited) = Some (newMapping entries)
  /\ sess (step (Deliver rid (Replied true res)) edited) = session_of res.
Proof.
  intros Hr edited. split; [apply handleSaveMapping_session|].
  apply deliver_preview_ok. unfold edited. simpl.
  destruct (handleSaveMapping_frame s entries) as (_ & _ & -> & _). done.
Qed.

Lemma X8_witness :
  let s := run [Input formA; ClickFetchPreview true] page0 in
  mappingData (sess (step (Deliver 1 (Replied true replyA))
                       (step (ClickSaveMapping ex_entries) s)))
  = Some ex_mapping.
Proof.
  cbv zeta.
  rewrite (proj2 (X8_late_preview_overwrites_edit
                    (run [Input formA; ClickFetchPreview true] page0)
                    ex_entries 1 replyA eq_refl)).
  reflexivity.
Defined.

(** X9.  A preview response with a success status whose body lacks the
    mapping or the preview is still written into the session: the three
    session variables take the (partly missing) values of the response,
    and only then does drawing fail, so the error line is shown, the loader
    hidden and the preview content not revealed. *)
Theorem X9_incomplete_success_overwrites_session (s : state) (rid : nat) (res : result) :
  pending (wld s) !! rid = Some KPreview ->
  r_mapping res = None \/ r_preview res = None ->
  let s' := step (Deliver rid (Replied true res)) s in
  sess s' = session_of res
  /\ previewError (vw s') = Some msg_type_error
  /\ previewLoading (vw s') = false
  /\ previewContent (vw s') = previewContent (vw s)
  /\ previewSummary (vw s') = previewSummary (vw s).
Proof.
  intros Hr Hmiss s'. split; [by apply deliver_preview_ok|].
  unfold s', step. rewrite Hr. unfold resume, fetchAndPreview_k, displayPreview.
  destruct s as [cfg ss st c v w]. simpl.
  destruct (r_mapping res) as [m|] eqn:Em; [|done].
  destruct Hmiss as [Hm|Hp]; [congruence|]. by rewrite Hp.
Qed.

Lemma X9_witness :
  let s := run [Input formB; ClickFetchPreview true] page0 in
  let s' := step (Deliver 1 (Replied true reply_no_mapping)) s in
  apiData (sess s') = Some rowsB /\ mappingData (sess s') = None
  /\ previewError (vw s') = Some msg_type_error.
Proof.
  destruct (X9_incomplete_success_overwrites_session
              (run [Input formB; ClickFetchPreview true] page0) 1 reply_no_mapping
              eq_refl (or_introl eq_refl)) as (Hs & He & _).
  cbv zeta. rewrite Hs. split; [reflexivity|]. split; [reflexivity|exact He].
Defined.

(** What an event does to the preview table and to the badges. *)
Lemma step_preview_view e s :
  (previewTableBody (vw (step e s)) = previewTableBody (vw s)
   \/ previewTableBody (vw (step e s)) = []
   \/ exists rows, previewTableBody (vw (step e s)) = Js.slice0 10 rows)
  /\ (mappingInfo (vw (step e s)) = mappingInfo (vw s)
      \/ exists m, mappingInfo (vw (step e s)) = badges m).
Proof.
  destruct s as [cfg [a m p] [ac cd] [pm mm di dd f] v [pend n nt dl loc]].
  destruct e; simpl.
  - tauto.
  - unfold handleFetchPreview, fetchAndPreview. destruct valid, pm; simpl; tauto.
  - unfold handlePreviewCache, fetchAndPreview; simpl.
    destruct (Js.truthy (apiUrl f)), pm; simpl; tauto.
  - unfold handleEditMapping; simpl. destruct m; simpl; tauto.
  - unfold handleSaveMapping, reprocessPreviewWithMapping; simpl.
    destruct a; simpl; [eauto 10|]. destruct p; simpl; eauto 10.
  - destruct di; [tauto|]. unfold handleConfirmImport; simpl.
    destruct a; [|simpl; tauto]. destruct m; [|simpl; tauto].
    destruct (requirePlatform cfg && negb (Js.truthy (apiPlatform f))); [simpl; tauto|].
    destruct (requireShopName cfg && negb (Js.truthy (apiShopName f))); [simpl; tauto|].
    destruct answer; simpl; tauto.
  - destruct value; simpl; tauto.
  - unfold handleSaveConfig; simpl.
    destruct (requireShopName cfg && negb (Js.truthy (apiShopName f))); [simpl; tauto|].
    destruct (requirePlatform cfg && negb (Js.truthy (apiPlatform f))); [simpl; tauto|].
    destruct (negb (Js.truthy (apiUrl f))); simpl; tauto.
  - unfold openManageConfigsModal; simpl. destruct mm; simpl; tauto.
  - tauto.
  - tauto.
  - destruct dd; [tauto|]. unfold confirmDeleteConfig; simpl.
    destruct cd as [X|]; simpl; tauto.
  - destruct (pend !! rid) as [k|] eqn:Hr; [|tauto].
    destruct k as [| |k| | |k| | |]; simpl.
    + unfold fetchAndPreview_k, displayPreview.
      destruct o as [msg|msg|[] res]; simpl; try tauto.
      destruct (r_mapping res); simpl; [destruct (r_preview res)|]; simpl; eauto 10.
    + unfold handleConfirmImport_k.
      destruct o as [msg|msg|[] res]; simpl; try tauto.
      destruct pm; simpl; tauto.
    + unfold loadSavedConfigs_k.
      destruct k, o as [msg|msg|ok res]; simpl; try tauto;
        destruct (r_success res), (r_configs res); simpl; tauto.
    + unfold handleConfigSelect_k.
      destruct o as [msg|msg|ok res]; simpl; try tauto.
      destruct (r_success res), (r_config res); simpl; tauto.
    + unfold handleSaveConfig_k.
      destruct o as [msg|msg|ok res]; simpl; try tauto.
      destruct (r_success res); simpl; tauto.
    + unfold loadConfigsTable_k.
      destruct k, o as [msg|msg|ok res]; simpl; try tauto;
        destruct (r_success res), (r_configs res) as [all|]; simpl; try tauto;
        destruct (List.filter _ all); simpl; tauto.
    + unfold handleViewConfig_k.
      destruct o as [msg|msg|ok res]; simpl; try tauto.
      destruct (r_success res), (r_config res); simpl; tauto.
    + unfold handleDeleteConfig_k.
      destruct o as [msg|msg|ok res]; simpl; try tauto.
      destruct (r_success res), (r_config res); simpl; tauto.
    + unfold confirmDeleteConfig_k.
      destruct o as [msg|msg|ok res]; simpl; try tauto.
      destruct (r_success res); simpl; [|tauto].
      destruct cd; simpl; tauto.
Qed.

Lemma badges_lookup m k f :
  badges m !! k = Some f <-> m !! k = Some (Some f) /\ f <> "".
Proof.
  unfold badges. rewrite lookup_omap_Some. split.
  - intros ([g|] & Hg & Hk); [|done].
    destruct (Js.truthy g) eqn:E; [|done]. injection Hg as ->.
    split; [done|]. by apply truthy_nonempty.
  - intros [Hk Hf]. exists (Some f). split; [|done].
    apply truthy_nonempty in Hf. by rewrite Hf.
Qed.

(** X10.  In every state the page can reach, the preview table holds at
    most ten rows, and no badge of the mapping summary names an empty source
    field: a canonical field mapped to nothing is not listed. *)
Theorem X10_preview_shows_at_most_ten_rows (s : state) :
  reachable s ->
  length (previewTableBody (vw s)) <= 10
  /\ (forall k f, mappingInfo (vw s) !! k = Some f -> f <> "").
Proof.
  induction 1 as [c a b|e s Hs [IH1 IH2]].
  - split; [simpl; lia|]. intros k f. simpl. by rewrite lookup_empty.
  - destruct (step_preview_view e s) as [Ht Hb]. split.
    + destruct Ht as [->|[->|[rows ->]]]; [done|simpl; lia|].
      unfold Js.slice0. rewrite length_take. lia.
    + destruct Hb as [->|[m ->]]; [done|]. intros k f Hk. by apply badges_lookup in Hk as [_ Hf].
Qed.

Lemma X10_witness :
  length (previewTableBody (vw page_previewed)) <= 10.
Proof.
  exact (proj1 (X10_preview_shows_at_most_ten_rows page_previewed
                  (reachable_run _ page0 (reachable_init no_custom true true)))).
Defined.

(** ** Saved configurations: names, saving, loading *)

(** X12.  The name a configuration is saved under is the shop name and the
    platform joined by an underscore when both are filled in, whatever the
    time of the save, so saving again addresses the same name; when either
    is empty the name is the module type followed by the time of the save,
    so two saves at different times never share a name. *)
Theorem X12_config_name_is_the_upsert_key (cfg : settings)
    (shopName platform now1 now2 : string) :
  (shopName <> "" -> platform <> "" ->
   configName cfg shopName platform now1 = shopName ++ "_" ++ platform
   /\ configName cfg shopName platform now1 = configName cfg shopName platform now2)
  /\ (shopName = "" \/ platform = "" ->
      configName cfg shopName platform now1 = moduleType cfg ++ "_" ++ now1
      /\ (configName cfg shopName platform now1 = configName cfg shopName platform now2 ->
          now1 = now2)).
Proof.
  unfold configName. split.
  - intros Hs%truthy_nonempty Hp%truthy_nonempty. by rewrite Hs, Hp.
  - intros Hempty.
    assert (Js.truthy shopName && Js.truthy platform = false) as ->.
    { destruct Hempty as [-> | ->]; [done|]. apply andb_false_r. }
    split; [done|]. intros H. apply String.app_inj in H. by apply (String.app_inj "_") in H.
Qed.

(** X13.  When the backend accepts a save, the operator is shown the
    backend's message and the list of saved configurations is requested
    again; what the dropdown holds afterwards is what that second response
    lists for the module (or the list held before, if it fails). *)
Theorem X13_save_success_refreshes_list (s : state) (rid : nat) (ok : bool)
    (res : result) (o : fetch_outcome) :
  pending (wld s) !! rid = Some KSaveConfig ->
  r_success res = true ->
  let s1 := step (Deliver rid (Replied ok res)) s in
  let s2 := step (Deliver (nextId (wld s)) o) s1 in
  dialogs (wld s1) = (dialogs (wld s) ++ [AlertMessage (r_message res)])%list
  /\ sent_since s s1 = [ReqConfigs]
  /\ stor s1 = stor s
  /\ sent_since s1 s2 = []
  /\ allConfigs (stor s2) = listed (moduleType (config s)) (allConfigs (stor s)) o
  /\ dialogs (wld s2) = dialogs (wld s1).
Proof.
  intros Hr Hs.
  destruct s as [cfg ss [ac cd] c v [pend n nt dl loc]]. simpl in Hr. cbn zeta.
  cbn -[loadSavedConfigs_k]. rewrite Hr.
  cbn -[loadSavedConfigs_k]. unfold handleSaveConfig_k. rewrite Hs.
  cbn -[loadSavedConfigs_k]. rewrite lookup_insert_eq.
  unfold resume. rewrite loadSavedConfigs_k_frame. by sent_simpl.
Qed.

Lemma X13_witness :
  let s := step (ClickSaveConfig "1700000000000") page_A in
  allConfigs (stor (step (Deliver 2 (Replied true (configs_reply [cfg_orders])))
                      (step (Deliver 1 (Replied true (saved_reply "saved"))) s)))
  = [cfg_orders].
Proof.
  cbv zeta.
  destruct (X13_save_success_refreshes_list
              (step (ClickSaveConfig "1700000000000") page_A) 1 true (saved_reply "saved")
              (Replied true (configs_reply [cfg_orders])) eq_refl eq_refl)
    as (_ & _ & _ & _ & Hl & _).
  etrans; [exact Hl|reflexivity].
Defined.

Lemma confirmDeleteConfig_k_refused o s :
  refused o = true ->
  confirmDeleteConfig_k o s
  = confirmDelete_finally (alert (AlertFailure (failure_message msg_delete_failed o)) s).
Proof.
  intros Hf. unfold confirmDeleteConfig_k. destruct o as [msg|msg|ok res]; try done.
  simpl in Hf. by destruct (r_success res).
Qed.

(** X14.  When the DELETE is refused (the network fails, the body cannot be
    read, or the body does not report success) the operator is shown the
    message, nothing is reloaded, the record stays kept for deletion and
    the lists stay as they were, and the confirm button is enabled again: a
    new click on it sends the DELETE for the same record once more. *)
Theorem X14_refused_delete_can_be_retried (s : state) (rid : nat) (o : fetch_outcome)
    (X : saved_config) :
  pending (wld s) !! rid = Some KDeleteCall ->
  refused o = true ->
  configToDelete (stor s) = Some X ->
  let s' := step (Deliver rid o) s in
  stor s' = stor s /\ sess s' = sess s
  /\ dialogs (wld s')
     = (dialogs (wld s) ++ [AlertFailure (failure_message msg_delete_failed o)])%list
  /\ sent_since s s' = []
  /\ btnConfirmDelete_disabled (ctl s') = false
  /\ sent_since s' (step ClickConfirmDelete s') = [ReqConfigDelete (sc_id X)].
Proof.
  intros Hr Hf HX s'.
  assert (s' = confirmDelete_finally
                 (alert (AlertFailure (failure_message msg_delete_failed o)) (settle rid s)))
    as ->.
  { unfold s', step. rewrite Hr. unfold resume. by apply confirmDeleteConfig_k_refused. }
  destruct s as [cfg ss [ac cd] [pm mm di dd f] v [pend n nt dl loc]].
  simpl in HX. subst cd. by sent_simpl.
Qed.

Lemma X14_witness :
  let s := run delete_in_flight page0 in
  let s' := step (Deliver 2 (Replied true (refusal_reply "in use"))) s in
  configToDelete (stor s') = Some cfg_orders
  /\ sent_since s' (step ClickConfirmDelete s') = [ReqConfigDelete 1].
Proof.
  destruct (X14_refused_delete_can_be_retried (run delete_in_flight page0) 2
              (Replied true (refusal_reply "in use")) cfg_orders eq_refl eq_refl eq_refl)
    as (Hst & _ & _ & _ & _ & Hre).
  cbv zeta. rewrite Hst. split; [reflexivity|exact Hre].
Defined.

(** X15.  When the record of a selected configuration arrives, its API URL,
    data path, API key and platform are put into the form as they are
    stored (an absent one as the empty string) and the shop name is left as
    typed; the session and the stored lists are untouched and nothing is
    sent.  A preview fetched next sends exactly these values. *)
Theorem X15_selected_config_fills_form (s : state) (rid : nat) (ok : bool)
    (res : result) (cfg : saved_config) :
  pending (wld s) !! rid = Some KConfigSelect ->
  r_success res = true ->
  r_config res = Some cfg ->
  let s' := step (Deliver rid (Replied ok res)) s in
  formv (ctl s') = form_of_config cfg (formv (ctl s))
  /\ sess s' = sess s /\ stor s' = stor s
  /\ dialogs (wld s') = (dialogs (wld s) ++ [AlertConfigLoaded (sc_config_name cfg)])%list
  /\ sent_since s s' = []
  /\ (previewModal (ctl s) = true ->
      sent_since s' (step (ClickFetchPreview true) s')
      = [ReqPreview (apiEndpoint (config s))
           {| fd_api_url := Js.or_default (sc_api_url cfg) "";
              fd_data_path := Js.or_default (sc_data_path cfg) "";
              fd_api_key := Js.or_default (sc_api_key cfg) "";
              fd_platform := Js.or_default (sc_platform cfg) "";
              fd_shop_name := apiShopName (formv (ctl s));
              fd_use_cache := false |}]).
Proof.
  intros Hr Hs Hc s'.
  assert (s' = alert (AlertConfigLoaded (sc_config_name cfg))
                 (set_formv (form_of_config cfg (formv (ctl s))) (settle rid s))) as ->.
  { unfold s', step. rewrite Hr. unfold resume, handleConfigSelect_k. rewrite Hs, Hc.
    by destruct s as [cfg0 ss st [pm mm di dd f] v w]. }
  destruct s as [cfg0 ss st [pm mm di dd f] v [pend n nt dl loc]]. simpl.
  sent_simpl. repeat split; try done. intros ->.
  unfold handleFetchPreview, fetchAndPreview. by sent_simpl.
Qed.

Lemma X15_witness :
  let s := step (SelectConfig (Some 7%Z)) page0 in
  let s' := step (Deliver 1 (Replied true (config_reply cfg_keyed))) s in
  apiKey (formv (ctl s')) = "s3cr3t"
  /\ apiUrl (formv (ctl s')) = "https://b.example/orders".
Proof.
  destruct (X15_selected_config_fills_form (step (SelectConfig (Some 7%Z)) page0) 1 true
              (config_reply cfg_keyed) cfg_keyed eq_refl eq_refl eq_refl) as (Hf & _).
  cbv zeta. rewrite Hf. split; reflexivity.
Defined.

(** ** Missing records and failed lists *)

(** X16.  When the backend answers a request for one record without success
    or without the record, the module does nothing at all, whether the
    record was asked for to fill the form, to be viewed or to be deleted: no
    dialog opens and no variable changes; in particular a record kept for
    deletion by an earlier request stays kept. *)
Theorem X16_missing_record_is_ignored (s : state) (rid : nat) (k : kont)
    (ok : bool) (res : result) :
  pending (wld s) !! rid = Some k ->
  k = KConfigSelect \/ k = KViewConfig \/ k = KDeleteGet ->
  r_success res = false \/ r_config res = None ->
  step (Deliver rid (Replied ok res)) s = settle rid s
  /\ dialogs (wld (step (Deliver rid (Replied ok res)) s)) = dialogs (wld s)
  /\ stor (step (Deliver rid (Replied ok res)) s) = stor s
  /\ formv (ctl (step (Deliver rid (Replied ok res)) s)) = formv (ctl s).
Proof.
  intros Hr Hk Hmiss.
  assert (step (Deliver rid (Replied ok res)) s = settle rid s) as ->.
  { unfold step. rewrite Hr.
    destruct Hk as [->|[->| ->]]; simpl;
      unfold handleConfigSelect_k, handleViewConfig_k, handleDeleteConfig_k;
      destruct Hmiss as [-> | ->]; try done; by destruct (r_success res). }
  by destruct s as [cfg ss st c v [pend n nt dl loc]].
Qed.

Lemma X16_witness :
  let s := run [ClickDelete 1; Deliver 1 (Replied true (config_reply cfg_orders)); ClickDelete 9]
             page0 in
  configToDelete (stor (step (Deliver 2 (Replied true (refusal_reply "not found"))) s))
  = Some cfg_orders.
Proof.
  destruct (X16_missing_record_is_ignored
              (run [ClickDelete 1; Deliver 1 (Replied true (config_reply cfg_orders));
                    ClickDelete 9] page0)
              2 KDeleteGet true (refusal_reply "not found") eq_refl
              (or_intror (or_intror eq_refl)) (or_introl eq_refl)) as (_ & _ & Hst & _).
  cbv zeta. rewrite Hst. reflexivity.
Defined.

Lemma loadSavedConfigs_k_unlisted o s : unlisted o = true -> loadSavedConfigs_k o s = s.
Proof.
  unfold loadSavedConfigs_k. destruct o as [msg|msg|ok res]; try done. simpl.
  destruct (r_success res); [|done]. destruct (r_configs res) as [all|]; [|done].
  intros Hu. exfalso. cbv in Hu. discriminate Hu.
Qed.

(** X17.  When the list of saved configurations cannot be loaded for the
    dropdown (the request is refused or the body has no list), nothing
    changes and nothing is shown: the dropdown keeps the list it had. *)
Theorem X17_failed_dropdown_load_is_silent (s : state) (rid : nat) (o : fetch_outcome) :
  pending (wld s) !! rid = Some (KLoadSaved SavedDone) ->
  unlisted o = true ->
  step (Deliver rid o) s = settle rid s
  /\ allConfigs (stor (step (Deliver rid o) s)) = allConfigs (stor s)
  /\ dialogs (wld (step (Deliver rid o) s)) = dialogs (wld s).
Proof.
  intros Hr Hu.
  assert (step (Deliver rid o) s = settle rid s) as ->.
  { unfold step. rewrite Hr. unfold resume. by rewrite loadSavedConfigs_k_unlisted. }
  by destruct s as [cfg ss st c v [pend n nt dl loc]].
Qed.

Lemma X17_witness :
  step (Deliver 0 (Rejected "offline")) page0 = settle 0 page0.
Proof.
  exact (proj1 (X17_failed_dropdown_load_is_silent page0 0 (Rejected "offline")
                  eq_refl eq_refl)).
Defined.

(** X18.  Opening the manage dialog shows the loader and requests the list;
    whatever comes back, the panel ends as the error line (with the message
    of the failure, or a fixed one when the body has no list), as the empty
    notice, or as a table that is never empty; the list of the dropdown and
    the record kept for deletion are not touched by it. *)
Theorem X18_manage_panel_outcomes (s : state) (o : fetch_outcome) :
  manageConfigsModal (ctl s) = true ->
  let s1 := step ClickManageConfigs s in
  let s2 := step (Deliver (nextId (wld s)) o) s1 in
  configsPanel (vw s1) = PanelLoading
  /\ sent_since s s1 = [ReqConfigs]
  /\ stor s2 = stor s /\ sess s2 = sess s
  /\ sent_since s1 s2 = []
  /\ (unlisted o = true ->
      configsPanel (vw s2)
      = PanelError match o with
                   | Rejected message | Unparsable message => message
                   | Replied _ _ => msg_load_failed
                   end)
  /\ (unlisted o = false ->
      configsPanel (vw s2) = PanelEmpty
      \/ exists c rows, configsPanel (vw s2) = PanelTable (c :: rows)).
Proof.
  intros Hm.
  destruct s as [cfg ss st [pm mm di dd f] v [pend n nt dl loc]]. simpl in Hm. subst mm.
  cbn zeta. cbn -[loadConfigsTable_k]. rewrite lookup_insert_eq.
  cbn -[loadConfigsTable_k]. unfold loadConfigsTable_k.
  destruct o as [msg|msg|ok res]; simpl; try (sent_simpl; by repeat split).
  destruct (r_success res); simpl; [|sent_simpl; by repeat split].
  destruct (r_configs res) as [all|]; simpl; [|sent_simpl; by repeat split].
  destruct (List.filter _ all) as [|c rows]; simpl; sent_simpl;
    repeat split; try done; eauto.
Qed.

Lemma X18_witness :
  configsPanel (vw (step (Deliver 1 (Replied true (configs_reply [cfg_stock])))
                      (step ClickManageConfigs page0)))
  = PanelEmpty.
Proof.
  destruct (X18_manage_panel_outcomes page0
              (Replied true (configs_reply [cfg_stock])) eq_refl)
    as (_ & _ & _ & _ & _ & _ & Hp).
  destruct (Hp eq_refl) as [He|(c & rows & Ht)]; [exact He|discriminate Ht].
Defined.

(** ** The deletion button *)

(** X19.  In every state the page can reach, at most one deletion is
    running (its DELETE, or one of the two reloads that follow it, is in
    flight), the confirm button is disabled exactly while one is, so it is
    never left disabled once the deletion has ended, and while it is
    disabled a record is kept for deletion. *)
Theorem X19_delete_single_flight (s : state) :
  reachable s ->
  single in_delete_flow (pending (wld s))
  /\ (btnConfirmDelete_disabled (ctl s) = true
      <-> waiting in_delete_flow (pending (wld s)))
  /\ (btnConfirmDelete_disabled (ctl s) = true -> is_Some (configToDelete (stor s)))
  /\ (forall rid k, pending (wld s) !! rid = Some k -> rid < nextId (wld s)).
Proof.
  intros Hs. destruct (reachable_Inv s Hs) as ((Hf & _ & _ & Hd & Hd1) & _ & HA).
  done.
Qed.

Lemma X19_witness :
  btnConfirmDelete_disabled (ctl (run delete_in_flight page0)) = true
  /\ is_Some (configToDelete (stor (run delete_in_flight page0))).
Proof.
  destruct (X19_delete_single_flight (run delete_in_flight page0)
              (reachable_run delete_in_flight page0 (reachable_init no_custom true true)))
    as (_ & Hd & HA & _).
  assert (btnConfirmDelete_disabled (ctl (run delete_in_flight page0)) = true) as Hdis.
  { apply Hd. exists 2, KDeleteCall. split; reflexivity. }
  split; [exact Hdis|exact (HA Hdis)].
Defined.

(** ** Reading the mapping form *)




